(** * portfolio_optimization: the data downloader clients

    A shallow embedding of [code/python/data_downloader/data_client.py]
    (classes [PriceHistoryNASDAQ], [DolarPrices], [PriceHistoryYF]) and of its
    older draft [data_downloader/data_client.py] (class [PriceHistory]).

    Python values are a small inductive type, dictionaries are insertion
    ordered association lists, exceptions are an error type, and the HTTP
    traffic is a log of the requests sent, threaded through the calls. *)

From Stdlib Require Import List String Ascii ZArith NArith Lia Bool.
From Stdlib Require Import DecimalString SpecFloat.
Import ListNotations.

Open Scope string_scope.
Open Scope list_scope.
Open Scope Z_scope.

(* ================================================================= *)
(** ** Exceptions and results *)

(** The exceptions the clients can meet.  [KeyError] is the one raised
    with the key that was not found; [KeyErrorNoneOf] and [KeyErrorNotIn]
    are the [KeyError]s pandas raises for a list of labels, whose argument
    is a message: that none of the labels asked for is in the columns, or
    that the labels listed are not in the index.  [Unmodelled] is not a
    Python exception: it marks an input shape of a library call (pandas)
    that this development does not describe. *)
Inductive exn : Type :=
| TypeError
| ValueError
| KeyError (key : string)
| KeyErrorNoneOf (labels : list string)
| KeyErrorNotIn (labels : list string)
| AttributeError
| JSONDecodeError
| RequestException
| Unmodelled.

Inductive result (A : Type) : Type :=
| Ok (a : A)
| Raise (e : exn).
Arguments Ok {A} a.
Arguments Raise {A} e.

Definition rbind {A B} (r : result A) (k : A -> result B) : result B :=
  match r with
  | Ok a => k a
  | Raise e => Raise e
  end.

Notation "x <- e ;; k" := (rbind e (fun x => k))
  (at level 61, e at next level, right associativity).

Fixpoint mapM {A B} (f : A -> result B) (l : list A) : result (list B) :=
  match l with
  | [] => Ok []
  | a :: l' => b <- f a ;; bs <- mapM f l' ;; Ok (b :: bs)
  end.

(* ================================================================= *)
(** ** Calendar dates ([datetime.date]) *)

Record date : Type := mkdate { year : Z; month : Z; day : Z }.

Definition _is_leap (y : Z) : bool :=
  (y mod 4 =? 0) && (negb (y mod 100 =? 0) || (y mod 400 =? 0)).

Definition _days_before_year (y : Z) : Z :=
  let y1 := y - 1 in
  y1 * 365 + y1 / 4 - y1 / 100 + y1 / 400.

(** [_DAYS_IN_MONTH], January first. *)
Definition _DAYS_IN_MONTH : list Z :=
  [31; 28; 31; 30; 31; 30; 31; 31; 30; 31; 30; 31].

Definition _days_in_month (y m : Z) : Z :=
  if (m =? 2) && _is_leap y then 29
  else nth (Z.to_nat (m - 1)) _DAYS_IN_MONTH 0.

Definition _days_before_month (y m : Z) : Z :=
  fold_right Z.add 0 (firstn (Z.to_nat (m - 1)) _DAYS_IN_MONTH)
  + (if (2 <? m) && _is_leap y then 1 else 0).

(** [date.toordinal]: the proleptic Gregorian ordinal, 0001-01-01 being 1. *)
Definition toordinal (d : date) : Z :=
  _days_before_year (year d) + _days_before_month (year d) (month d) + day d.

(** [(a - b).days] for two dates. *)
Definition days_between (a b : date) : Z := toordinal a - toordinal b.

Definition decimal (n : Z) : string :=
  NilZero.string_of_uint (N.to_uint (Z.to_N n)).

Fixpoint zeros (n : nat) : string :=
  match n with
  | O => ""
  | S n' => String "0" (zeros n')
  end.

(** ["%0<w>d"] for a non-negative number. *)
Definition zfill (w : nat) (n : Z) : string :=
  let s := decimal n in
  (zeros (w - String.length s) ++ s)%string.

(** [date.isoformat]: ["%04d-%02d-%02d"]. *)
Definition isoformat (d : date) : string :=
  (zfill 4 (year d) ++ "-" ++ zfill 2 (month d) ++ "-"
   ++ zfill 2 (day d))%string.

(** [d - relativedelta(months=6)], after [relativedelta.__add__] of
    dateutil applied to the negated delta: the month moves six back, the
    year follows when the month wraps, the day is clipped to the length of
    the month reached, and [date.replace] refuses a year below 1. *)
Definition minus_six_months (d : date) : result date :=
  let m := month d - 6 in
  let '(y, m) := if m <? 1 then (year d - 1, m + 12) else (year d, m) in
  let dd := Z.min (_days_in_month y m) (day d) in
  if y <? 1 then Raise ValueError else Ok (mkdate y m dd).

(* ================================================================= *)
(** ** Python values *)

(** A float is an IEEE 754 binary64 number, in the standard library's
    representation: a zero, an infinity, a NaN, or a sign, a mantissa and
    a binary exponent. *)
Definition pyfloat : Type := spec_float.

Definition FInf (neg : bool) : pyfloat := S754_infinity neg.
Definition FNaN : pyfloat := S754_nan.

(** The double nearest to [p / q], ties to even, for [p] and [q]
    positive: the quotient is taken with enough bits and the position of
    the remainder, then rounded. *)
Definition double_of_ratio (neg : bool) (p q : Z) : pyfloat :=
  let '(mz, ez, lz) := SFdiv_core_binary 53 1024 p 0 q 0 in
  binary_round_aux 53 1024 neg mz ez lz.

(** The double a decimal numeral reads as: the one nearest to
    [(-1)^neg * mant * 10^exp10], an infinity when that is too large. *)
Definition double_of_decimal (neg : bool) (mant : N) (exp10 : Z) : pyfloat :=
  match mant with
  | N0 => S754_zero neg
  | Npos m =>
      if 0 <=? exp10 then double_of_ratio neg (Zpos m * 10 ^ exp10) 1
      else double_of_ratio neg (Zpos m) (10 ^ (- exp10))
  end.

(** The double an integer converts to. *)
Definition double_of_Z (n : Z) : pyfloat :=
  binary_normalize 53 1024 n 0 false.

#[warnings="-register-all"]
Inductive value : Type :=
| VNone
| VBool (b : bool)
| VInt (z : Z)
| VFloat (f : pyfloat)
| VStr (s : string)
| VDate (d : date)
| VTuple (l : list value)
| VList (l : list value)
| VDict (d : list (string * value))
| VObject (cls : string).

(** A [dict] with string keys, in insertion order. *)
Definition dict : Type := list (string * value).

Fixpoint dict_get (k : string) (d : dict) : option value :=
  match d with
  | [] => None
  | (k', v) :: d' => if String.eqb k k' then Some v else dict_get k d'
  end.

(** [d[k] = v]: an existing key keeps its place, a new one goes last. *)
Fixpoint dict_set (k : string) (v : value) (d : dict) : dict :=
  match d with
  | [] => [(k, v)]
  | (k', v') :: d' =>
      if String.eqb k k' then (k, v) :: d' else (k', v') :: dict_set k v d'
  end.

(** [obj[k]] with a string subscript. *)
Definition py_getitem (obj : value) (k : string) : result value :=
  match obj with
  | VDict d =>
      match dict_get k d with
      | Some v => Ok v
      | None => Raise (KeyError k)
      end
  | _ => Raise TypeError
  end.

(** [obj[k] = v] with a string subscript. *)
Definition py_setitem (obj : value) (k : string) (v : value) : result value :=
  match obj with
  | VDict d => Ok (VDict (dict_set k v d))
  | _ => Raise TypeError
  end.

(** The items a [for] loop visits. *)
Definition py_iter (obj : value) : result (list value) :=
  match obj with
  | VList l => Ok l
  | VTuple l => Ok l
  | VDict d => Ok (map (fun kv => VStr (fst kv)) d)
  | VStr s => Ok (map (fun c => VStr (String c "")) (list_ascii_of_string s))
  | _ => Raise TypeError
  end.

(** [x + all_data] where [all_data] is a list. *)
Definition py_add_list (x : value) (all_data : list value)
  : result (list value) :=
  match x with
  | VList l => Ok (l ++ all_data)
  | _ => Raise TypeError
  end.

(** [x - relativedelta(months=6)]: only dates are taken by
    [relativedelta.__rsub__], anything else ends in a [TypeError]. *)
Definition py_sub_six_months (x : value) : result value :=
  match x with
  | VDate d => r <- minus_six_months d ;; Ok (VDate r)
  | _ => Raise TypeError
  end.

(** [(a - b).days] on values. *)
Definition py_days_between (a b : value) : result Z :=
  match a, b with
  | VDate x, VDate y => Ok (days_between x y)
  | _, _ => Raise TypeError
  end.

(** [x.isoformat()]. *)
Definition py_isoformat (x : value) : result string :=
  match x with
  | VDate d => Ok (isoformat d)
  | _ => Raise AttributeError
  end.

(* ================================================================= *)
(** ** Strings: [re.sub], [str.replace], [float], [int] *)

Definition chars := list ascii.

Definition is_digit (c : ascii) : bool :=
  let n := N_of_ascii c in ((48 <=? n) && (n <=? 57))%N.

(** [Py_ISSPACE]: tab, line feed, vertical tab, form feed, carriage return
    and the blank. *)
Definition is_space (c : ascii) : bool :=
  let n := N_of_ascii c in (((9 <=? n) && (n <=? 13)) || (n =? 32))%N.

Definition digit_value (c : ascii) : N := (N_of_ascii c - 48)%N.

Definition digits_value (ds : chars) : N :=
  fold_left (fun acc c => (10 * acc + digit_value c)%N) ds 0%N.

(** [re.sub('[$,]', '', s)] on characters. *)
Definition drop_dollar_comma (s : chars) : chars :=
  filter (fun c => negb (Ascii.eqb c "$" || Ascii.eqb c ",")) s.

(** [s.replace(c, '')] on characters. *)
Definition drop_char (c : ascii) (s : chars) : chars :=
  filter (fun x => negb (Ascii.eqb x c)) s.

(** [re.sub('[$,]', '', x)]: [x] has to be a string. *)
Definition re_sub_dollar_comma (x : value) : result string :=
  match x with
  | VStr s =>
      Ok (string_of_list_ascii (drop_dollar_comma (list_ascii_of_string s)))
  | _ => Raise TypeError
  end.

(** [x.replace(c, '')]: only strings have the method. *)
Definition str_replace (c : ascii) (x : value) : result string :=
  match x with
  | VStr s =>
      Ok (string_of_list_ascii (drop_char c (list_ascii_of_string s)))
  | _ => Raise AttributeError
  end.

Fixpoint lstrip (s : chars) : chars :=
  match s with
  | c :: s' => if is_space c then lstrip s' else s
  | [] => []
  end.

Definition strip (s : chars) : chars := rev (lstrip (rev (lstrip s))).

(** The underscore rule of numeric literals: an underscore stands between
    two digits.  [prev] is the character before [s]. *)
Fixpoint underscores_ok (prev : ascii) (s : chars) : bool :=
  match s with
  | [] => negb (Ascii.eqb prev "_")
  | c :: s' =>
      if Ascii.eqb c "_" then is_digit prev && underscores_ok c s'
      else if Ascii.eqb prev "_" then is_digit c && underscores_ok c s'
      else underscores_ok c s'
  end.

Fixpoint span_digits (s : chars) : chars * chars :=
  match s with
  | c :: s' =>
      if is_digit c then let '(ds, r) := span_digits s' in (c :: ds, r)
      else ([], s)
  | [] => ([], [])
  end.

(** An optional sign: whether it is a minus, and what follows. *)
Definition take_sign (s : chars) : bool * chars :=
  match s with
  | c :: s' =>
      if Ascii.eqb c "-" then (true, s')
      else if Ascii.eqb c "+" then (false, s')
      else (false, s)
  | [] => (false, [])
  end.

Definition lower (c : ascii) : ascii :=
  let n := N_of_ascii c in
  if ((65 <=? n) && (n <=? 90))%N then ascii_of_N (n + 32) else c.

(** The exponent part [e[+-]digits] of a float literal, when it is all that
    is left of the string. *)
Definition parse_exponent (s : chars) : option Z :=
  match s with
  | [] => Some 0
  | c :: s' =>
      if Ascii.eqb (lower c) "e" then
        let '(neg, r) := take_sign s' in
        match span_digits r with
        | (d :: ds, []) =>
            let e := Z.of_N (digits_value (d :: ds)) in
            Some (if neg then - e else e)
        | _ => None
        end
      else None
  end.

(** The decimal form: digits, an optional point and more digits, at least
    one digit in all, and an optional exponent. *)
Definition parse_decimal (neg : bool) (s : chars) : option pyfloat :=
  let '(ip, r) := span_digits s in
  let '(fp, r) :=
    match r with
    | c :: r' => if Ascii.eqb c "." then span_digits r' else ([], r)
    | [] => ([], [])
    end in
  match ip ++ fp with
  | [] => None
  | _ =>
      match parse_exponent r with
      | Some e =>
          Some (double_of_decimal neg (digits_value (ip ++ fp))
                  (e - Z.of_nat (List.length fp)))
      | None => None
      end
  end.

(** [inf], [infinity] and [nan], in any case. *)
Definition parse_inf_nan (neg : bool) (s : chars) : option pyfloat :=
  let w := string_of_list_ascii (map lower s) in
  if String.eqb w "inf" || String.eqb w "infinity" then Some (FInf neg)
  else if String.eqb w "nan" then Some FNaN
  else None.

(** [float(s)] for a string of ASCII characters. *)
Definition py_float (s : string) : result pyfloat :=
  let l := strip (list_ascii_of_string s) in
  if underscores_ok "000" l then
    let l := drop_char "_" l in
    let '(neg, body) := take_sign l in
    match parse_decimal neg body with
    | Some f => Ok f
    | None =>
        match parse_inf_nan neg body with
        | Some f => Ok f
        | None => Raise ValueError
        end
    end
  else Raise ValueError.

(** The most digits [int] takes from a string, as the interpreter sets it
    when left alone ([sys.get_int_max_str_digits]). *)
Definition int_max_str_digits : Z := 4300.

(** [int(s)] for a string of ASCII characters, base ten. *)
Definition py_int (s : string) : result Z :=
  let l := strip (list_ascii_of_string s) in
  if underscores_ok "000" l then
    let l := drop_char "_" l in
    let '(neg, body) := take_sign l in
    match span_digits body with
    | (d :: ds, []) =>
        if int_max_str_digits <? Z.of_nat (List.length (d :: ds))
        then Raise ValueError
        else
          let n := Z.of_N (digits_value (d :: ds)) in
          Ok (if neg then - n else n)
    | _ => Raise ValueError
    end
  else Raise ValueError.

(* ================================================================= *)
(** ** Tables ([pandas.DataFrame]) *)

(** A table is kept by columns: the row labels, and the named columns in
    their order, each as long as the index. *)
Record DataFrame : Type := mkframe {
  df_index : list value;
  df_columns : list (string * list value)
}.

Definition as_dict (v : value) : result dict :=
  match v with
  | VDict d => Ok d
  | _ => Raise Unmodelled
  end.

Definition add_key (keys : list string) (k : string) : list string :=
  if existsb (String.eqb k) keys then keys else keys ++ [k].

(** The keys of all the records, each at its first appearance. *)
Definition union_keys (recs : list dict) : list string :=
  fold_left (fun keys r => fold_left add_key (map fst r) keys) recs [].

(** The cell of a record under a column: a missing key reads as NaN. *)
Definition cell (k : string) (r : dict) : value :=
  match dict_get k r with
  | Some v => v
  | None => VFloat FNaN
  end.

Definition range_index (n : nat) : list value :=
  map (fun i => VInt (Z.of_nat i)) (seq 0 n).

(** What pandas has seen in the cells of a column when it chooses the
    type of the column ([maybe_convert_objects]). *)
Record seen : Type := mkseen {
  null_ : bool;    (* a [None] *)
  nan_ : bool;     (* a float NaN *)
  float_ : bool;   (* a float that is a number *)
  int_ : bool;     (* an integer *)
  uint_ : bool;    (* an integer above the signed 64-bit range *)
  sint_ : bool;    (* a negative integer *)
  bool_ : bool;    (* a boolean *)
  object_ : bool   (* anything else, which ends the scan *)
}.

Definition INT64_MIN : Z := - 2 ^ 63.
Definition INT64_MAX : Z := 2 ^ 63 - 1.
Definition UINT64_MAX : Z := 2 ^ 64 - 1.

Definition is_nan (f : pyfloat) : bool :=
  match f with
  | S754_nan => true
  | _ => false
  end.

(** The scan of the cells, first to last.  An integer is checked against
    the 64-bit ranges only while no [None] has been met. *)
Fixpoint scan_cells (cells : list value) (s : seen) : seen :=
  match cells with
  | [] => s
  | c :: rest =>
      match c with
      | VNone =>
          scan_cells rest
            (mkseen true (nan_ s) (float_ s) (int_ s) (uint_ s) (sint_ s)
                    (bool_ s) (object_ s))
      | VFloat f =>
          if is_nan f then
            scan_cells rest
              (mkseen (null_ s) true (float_ s) (int_ s) (uint_ s)
                      (sint_ s) (bool_ s) (object_ s))
          else
            scan_cells rest
              (mkseen (null_ s) (nan_ s) true (int_ s) (uint_ s) (sint_ s)
                      (bool_ s) (object_ s))
      | VBool _ =>
          scan_cells rest
            (mkseen (null_ s) (nan_ s) (float_ s) (int_ s) (uint_ s)
                    (sint_ s) true (object_ s))
      | VInt v =>
          if null_ s then
            scan_cells rest
              (mkseen (null_ s) (nan_ s) (float_ s) true (uint_ s)
                      (sint_ s) (bool_ s) (object_ s))
          else
            let sint := sint_ s || ((INT64_MIN <=? v) && (v <? 0)) in
            let uint :=
              uint_ s || ((INT64_MAX <? v) && (v <=? UINT64_MAX)) in
            if (uint && sint) || (UINT64_MAX <? v) || (v <? INT64_MIN) then
              mkseen (null_ s) (nan_ s) (float_ s) true uint sint (bool_ s)
                     true
            else
              scan_cells rest
                (mkseen (null_ s) (nan_ s) (float_ s) true uint sint
                        (bool_ s) (object_ s))
      | _ =>
          mkseen (null_ s) (nan_ s) (float_ s) (int_ s) (uint_ s) (sint_ s)
                 (bool_ s) true
      end
  end.

(** Whether the column becomes a column of floats: nothing but numbers
    and missing values were seen, and a float, or a missing value beside
    a number. *)
Definition becomes_float (s : seen) : bool :=
  negb (object_ s) && negb (bool_ s)
  && (if null_ s || nan_ s then float_ s || int_ s || nan_ s
      else float_ s).

Definition as_float (c : value) : value :=
  match c with
  | VNone => VFloat FNaN
  | VInt v => VFloat (double_of_Z v)
  | other => other
  end.

(** The cells of a column as the table holds them: converted to floats
    when the column becomes one of floats, and as they came otherwise
    (a column of integers, of booleans, or of objects).  Integers too
    large for a double (from [2^1024] on) are not described. *)
Definition infer_column (cells : list value) : list value :=
  if becomes_float
       (scan_cells cells
          (mkseen false false false false false false false false))
  then map as_float cells
  else cells.

(** The table of a list of records: a row per record, a column per key,
    a missing key reading as NaN. *)
Definition from_records (recs : list dict) : DataFrame :=
  mkframe (range_index (List.length recs))
          (map (fun k => (k, infer_column (map (cell k) recs)))
               (union_keys recs)).

(** [pd.DataFrame(data)] for a list of dictionaries; what pandas builds
    from other elements is left out. *)
Definition pd_DataFrame (data : list value) : result DataFrame :=
  recs <- mapM as_dict data ;; Ok (from_records recs).

Fixpoint column (k : string) (cols : list (string * list value))
  : option (list value) :=
  match cols with
  | [] => None
  | (k', c) :: cols' => if String.eqb k k' then Some c else column k cols'
  end.

(** [df[k]]. *)
Definition df_getitem (df : DataFrame) (k : string) : result (list value) :=
  match column k (df_columns df) with
  | Some c => Ok c
  | None => Raise (KeyError k)
  end.

Fixpoint set_column (k : string) (c : list value)
  (cols : list (string * list value)) : list (string * list value) :=
  match cols with
  | [] => [(k, c)]
  | (k', c') :: cols' =>
      if String.eqb k k' then (k, c) :: cols'
      else (k', c') :: set_column k c cols'
  end.

(** [df[k] = c]. *)
Definition df_setitem (df : DataFrame) (k : string) (c : list value)
  : DataFrame :=
  mkframe (df_index df) (set_column k c (df_columns df)).

(** [df.set_index(k)]: the column becomes the row labels and leaves the
    columns.  A name that is no column is reported in a message. *)
Definition set_index (df : DataFrame) (k : string) : result DataFrame :=
  match column k (df_columns df) with
  | Some c =>
      Ok (mkframe c
            (filter (fun kc => negb (String.eqb (fst kc) k))
                    (df_columns df)))
  | None => Raise (KeyErrorNoneOf [k])
  end.

Definition is_column (df : DataFrame) (k : string) : bool :=
  match column k (df_columns df) with
  | Some _ => true
  | None => false
  end.

(** [df[[k1, ...]]]: the named columns, in the order asked.  When some
    name is no column the [KeyError] carries a message: that none of the
    names is in the columns when all are missing, and else which ones are
    not in the index. *)
Definition df_select (df : DataFrame) (ks : list string) : result DataFrame :=
  let missing := filter (fun k => negb (is_column df k)) ks in
  match missing with
  | [] =>
      cols <- mapM (fun k => c <- df_getitem df k ;; Ok (k, c)) ks ;;
      Ok (mkframe (df_index df) cols)
  | _ =>
      if (List.length missing =? List.length ks)%nat
      then Raise (KeyErrorNoneOf ks)
      else Raise (KeyErrorNotIn missing)
  end.

(* ================================================================= *)
(** ** HTTP and the outside world *)

Record request : Type := mkrequest {
  req_url : string;
  req_params : dict;
  req_headers : list (string * string);
  req_verify : bool
}.

(** What the clients look at in a [requests.Response]: [ok], the raw
    body, and what [json()] gives. *)
Record response : Type := mkresponse {
  resp_ok : bool;
  resp_content : string;
  resp_json : result value
}.

(** Everything that is not the program: the clock, the servers (the
    answer to the [n]-th request of a run, which may also fail to arrive),
    pandas' date parser, and the yfinance bulk download. *)
Record Env : Type := mkenv {
  today : date;
  upstream : nat -> request -> result response;
  to_datetime : list value -> result (list value);
  yf_download : list string -> value -> value -> result DataFrame
}.

(** A computation that sends requests: it reads the log of the requests
    sent so far and returns its outcome with the log extended.  An
    exception keeps the log. *)
Definition M (A : Type) : Type := list request -> result A * list request.

Definition mret {A} (a : A) : M A := fun log => (Ok a, log).

Definition mbind {A B} (m : M A) (k : A -> M B) : M B :=
  fun log =>
    match m log with
    | (Ok a, log') => k a log'
    | (Raise e, log') => (Raise e, log')
    end.

Definition lift {A} (r : result A) : M A := fun log => (r, log).

Notation "x <~ e ;; k" := (mbind e (fun x => k))
  (at level 61, e at next level, right associativity).

(** [requests.get]: the request goes to the log and the server answers. *)
Definition requests_get (E : Env) (r : request) : M response :=
  fun log => (upstream E (List.length log) r, log ++ [r]).

(** The outcome of a computation started with nothing sent. *)
Definition run {A} (m : M A) : result A := fst (m []).

(** The requests a computation sends when started with nothing sent. *)
Definition sent {A} (m : M A) : list request := snd (m []).

(* ================================================================= *)
(** ** [PriceHistoryNASDAQ] *)

Module PriceHistoryNASDAQ.

(** The attributes [__init__] sets before it builds the table. *)
Record self : Type := mkself {
  _api_url : string;
  _api_service : string;
  _symbols : list string;
  user_agent : string
}.

Definition _build_url (s : self) (symbol : string) : string :=
  let parts := [_api_url s; symbol; _api_service s] in
  String.concat "/" parts.

Definition symbols (s : self) : list string := _symbols s.

(** [float(re.sub('[$,]', '', x))]. *)
Definition clean_price (x : value) : result pyfloat :=
  t <- re_sub_dollar_comma x ;; py_float t.

(** [int(x.replace(',', ''))]. *)
Definition clean_volume (x : value) : result Z :=
  t <- str_replace "," x ;; py_int t.

(** The body of the cleaning loop, on one [table_row]. *)
Definition clean_row (symbol : string) (table_row : value) : result value :=
  table_row <- py_setitem table_row "symbol" (VStr symbol) ;;
  x <- py_getitem table_row "close" ;;
  f <- clean_price x ;;
  table_row <- py_setitem table_row "close" (VFloat f) ;;
  x <- py_getitem table_row "volume" ;;
  n <- clean_volume x ;;
  table_row <- py_setitem table_row "volume" (VInt n) ;;
  x <- py_getitem table_row "open" ;;
  f <- clean_price x ;;
  table_row <- py_setitem table_row "open" (VFloat f) ;;
  x <- py_getitem table_row "high" ;;
  f <- clean_price x ;;
  table_row <- py_setitem table_row "high" (VFloat f) ;;
  x <- py_getitem table_row "low" ;;
  f <- clean_price x ;;
  py_setitem table_row "low" (VFloat f).

(** The container the loop went over, its items now cleaned in place. *)
Definition with_items (container : value) (items : list value) : value :=
  match container with
  | VList _ => VList items
  | VTuple _ => VTuple items
  | other => other
  end.

Definition grab_params (from_date to_date : date) : dict :=
  let limit := days_between to_date from_date in
  [ ("fromdate", VStr (isoformat from_date));
    ("todate", VStr (isoformat to_date));
    ("assetclass", VStr "stocks");
    ("limit", VInt limit) ].

(** The request [_grab_prices] sends for a symbol. *)
Definition grab_request (s : self) (symbol : string)
  (from_date to_date : date) : request :=
  let price_url := _build_url s symbol in
  let params := grab_params from_date to_date in
  let headers := [("user-agent", user_agent s)] in
  mkrequest price_url params headers true.

(** [historical_data.json()['data']['tradesTable']['rows']]. *)
Definition rows_of (historical_data : response) : result value :=
  historical_data <- resp_json historical_data ;;
  historical_data <- py_getitem historical_data "data" ;;
  historical_data <- py_getitem historical_data "tradesTable" ;;
  py_getitem historical_data "rows".

(** The cleaning loop. *)
Definition clean_rows (symbol : string) (historical_data : value)
  : result value :=
  items <- py_iter historical_data ;;
  items <- mapM (clean_row symbol) items ;;
  Ok (with_items historical_data items).

(** What [_grab_prices] does with the answer.  When the answer is not
    [ok] the function runs off its end and returns [None]. *)
Definition parse_prices (symbol : string) (historical_data : response)
  : result value :=
  if resp_ok historical_data then
    historical_data <- rows_of historical_data ;;
    clean_rows symbol historical_data
  else Ok VNone.

Definition _grab_prices (E : Env) (s : self) (symbol : string)
  (from_date to_date : date) : M value :=
  historical_data <~
    requests_get E (grab_request s symbol from_date to_date) ;;
  lift (parse_prices symbol historical_data).

(** The loop of [_build_data_frame] over the symbols still to fetch. *)
Fixpoint for_symbols (E : Env) (s : self) (from_date to_date : date)
  (symbols : list string) (all_data : list value) : M (list value) :=
  match symbols with
  | [] => mret all_data
  | symbol :: rest =>
      batch <~ _grab_prices E s symbol from_date to_date ;;
      all_data <~ lift (py_add_list batch all_data) ;;
      for_symbols E s from_date to_date rest all_data
  end.

(** The end of [_build_data_frame]: the table of the rows gathered, with
    its date column parsed. *)
Definition frame_of (E : Env) (all_data : list value) : result DataFrame :=
  price_data_frame <- pd_DataFrame all_data ;;
  dates <- df_getitem price_data_frame "date" ;;
  dates <- to_datetime E dates ;;
  Ok (df_setitem price_data_frame "date" dates).

Definition _build_data_frame (E : Env) (s : self) : M DataFrame :=
  let all_data := [] in
  let to_date := today E in
  from_date <~ lift (minus_six_months to_date) ;;
  all_data <~ for_symbols E s from_date to_date (_symbols s) all_data ;;
  lift (frame_of E all_data).

(** The object as [__init__] has set it up when it builds the table. *)
Definition new (symbols : list string) (user_agent : string) : self :=
  mkself "https://api.nasdaq.com/api/quote" "historical" symbols user_agent.

(** The constructor: the table it leaves in [price_data_frame]. *)
Definition __init__ (E : Env) (symbols : list string) (user_agent : string)
  : M DataFrame :=
  _build_data_frame E (new symbols user_agent).

End PriceHistoryNASDAQ.

(* ================================================================= *)
(** ** [DolarPrices] *)

Module DolarPrices.

Record self : Type := mkself {
  _api_url : string;
  _api_service : string
}.

Definition __init__ : self :=
  mkself "https://api.argentinadatos.com/v1/" "cotizaciones/dolares".

Definition _build_url (s : self) (symbol : string) : string :=
  let parts := [_api_url s; _api_service s; symbol] in
  String.concat "/" parts.

(** [requests.get(full_url)]: no parameters, no headers of its own. *)
Definition dolar_request (s : self) (symbol : string) : request :=
  mkrequest (_build_url s symbol) [] [] true.

Definition is_scalar (v : value) : bool :=
  match v with
  | VNone | VBool _ | VInt _ | VFloat _ | VStr _ => true
  | _ => false
  end.

(** [pd.DataFrame(dolar_data)] on what [json()] gave: the table of an
    array of objects; the empty table for [null] and for the empty object;
    a [ValueError] for a number, a string or a boolean, and for an object
    none of whose values is an array or an object.  Other objects are left
    out. *)
Definition frame_of_json (dolar_data : value) : result DataFrame :=
  match dolar_data with
  | VList l => pd_DataFrame l
  | VNone => Ok (mkframe [] [])
  | VDict [] => Ok (mkframe [] [])
  | VDict d =>
      if forallb (fun kv => is_scalar (snd kv)) d then Raise ValueError
      else Raise Unmodelled
  | VBool _ | VInt _ | VFloat _ | VStr _ => Raise ValueError
  | _ => Raise Unmodelled
  end.

Definition _build_data_frame (E : Env) (s : self) (symbol : string)
  : M DataFrame :=
  let full_url := dolar_request s symbol in
  r <~ requests_get E full_url ;;
  lift (
    dolar_data <- resp_json r ;;
    dolar_df <- frame_of_json dolar_data ;;
    fecha <- df_getitem dolar_df "fecha" ;;
    fecha <- to_datetime E fecha ;;
    let dolar_df := df_setitem dolar_df "fecha" fecha in
    dolar_df <- set_index dolar_df "fecha" ;;
    df_select dolar_df ["venta"]).

End DolarPrices.

(* ================================================================= *)
(** ** [PriceHistoryYF] *)

Module PriceHistoryYF.

Record self : Type := mkself { _symbols : list string }.

Definition symbols (s : self) : list string := _symbols s.

(** [from_date] and [to_date] are [None] when the caller leaves them
    out. *)
Definition _build_data_frame (E : Env) (s : self) (from_date to_date : value)
  : result DataFrame :=
  let to_date :=
    match to_date with VNone => VDate (today E) | _ => to_date end in
  from_date <-
    match from_date with
    | VNone => py_sub_six_months to_date
    | _ => Ok from_date
    end ;;
  yf_download E (_symbols s) from_date to_date.

Definition __init__ (E : Env) (symbols : list string) : result DataFrame :=
  _build_data_frame E (mkself symbols) VNone VNone.

End PriceHistoryYF.

(* ================================================================= *)
(** ** [PriceHistory], the older draft *)

Module PriceHistory.

Record self : Type := mkself {
  _api_url : string;
  _api_service : string;
  _symbols : list string;
  user_agent : string
}.

(** The symbol is not among the parts. *)
Definition _build_url (s : self) (symbol : string) : string :=
  let parts := [_api_url s; _api_service s] in
  String.concat "/" parts.

Definition symbols (s : self) : list string := _symbols s.

(** [float(x.replace('$', '')),]: a one-element tuple. *)
Definition clean_field (x : value) : result value :=
  t <- str_replace "$" x ;; f <- py_float t ;; Ok (VTuple [VFloat f]).

(** The body of the cleaning loop; every right-hand side ends in a comma
    and so is a tuple. *)
Definition clean_row (symbol : string) (table_row : value) : result value :=
  table_row <- py_setitem table_row "symbol" (VTuple [VStr symbol]) ;;
  x <- py_getitem table_row "close" ;;
  v <- clean_field x ;;
  table_row <- py_setitem table_row "close" v ;;
  x <- py_getitem table_row "volume" ;;
  v <- clean_field x ;;
  table_row <- py_setitem table_row "volume" v ;;
  x <- py_getitem table_row "open" ;;
  v <- clean_field x ;;
  table_row <- py_setitem table_row "open" v ;;
  x <- py_getitem table_row "high" ;;
  v <- clean_field x ;;
  table_row <- py_setitem table_row "high" v ;;
  x <- py_getitem table_row "low" ;;
  v <- clean_field x ;;
  py_setitem table_row "low" v.

(** What the loop visits when [historical_data] is still the response:
    the chunks of its body, byte strings, none when the body is empty. *)
Definition response_chunks (r : response) : list value :=
  match resp_content r with
  | EmptyString => []
  | _ => [VObject "bytes"]
  end.

(** What [_grab_prices] does with the answer.  An [ok] answer is wrapped
    in a tuple before it is subscripted with a string; any other answer
    is looped over as it is and returned. *)
Definition parse_prices (symbol : string) (historical_data : response)
  : result value :=
  if resp_ok historical_data then
    j <- resp_json historical_data ;;
    let historical_data := VTuple [j] in
    historical_data <- py_getitem historical_data "data" ;;
    historical_data <- py_getitem historical_data "tradesTable" ;;
    historical_data <- py_getitem historical_data "rows" ;;
    items <- py_iter historical_data ;;
    items <- mapM (clean_row symbol) items ;;
    Ok (PriceHistoryNASDAQ.with_items historical_data items)
  else
    _ <- mapM (clean_row symbol) (response_chunks historical_data) ;;
    Ok (VObject "Response").

Definition _grab_prices (E : Env) (s : self) (symbol : string)
  (from_date to_date : value) : M value :=
  let price_url := _build_url s symbol in
  limit <~ lift (py_days_between to_date from_date) ;;
  fromdate <~ lift (py_isoformat from_date) ;;
  todate <~ lift (py_isoformat to_date) ;;
  let params :=
    [ ("fromdate", VStr fromdate);
      ("todate", VStr todate);
      ("assetclass", VStr "stocks");
      ("limit", VInt limit) ] in
  let headers := [("user-agent", user_agent s)] in
  historical_data <~
    requests_get E (mkrequest price_url params headers true) ;;
  lift (parse_prices symbol historical_data).

Fixpoint for_symbols (E : Env) (s : self) (from_date to_date : value)
  (symbols : list string) (all_data : list value) : M (list value) :=
  match symbols with
  | [] => mret all_data
  | symbol :: rest =>
      batch <~ _grab_prices E s symbol from_date to_date ;;
      all_data <~ lift (py_add_list batch all_data) ;;
      for_symbols E s from_date to_date rest all_data
  end.

(** [to_date] is the empty list here, not today's date. *)
Definition _build_data_frame (E : Env) (s : self) : M DataFrame :=
  let all_data := [] in
  let to_date := VList [] in
  from_date <~ lift (py_sub_six_months to_date) ;;
  all_data <~ for_symbols E s from_date to_date (_symbols s) all_data ;;
  lift (PriceHistoryNASDAQ.frame_of E all_data).

(** The object as [__init__] has set it up when it builds the table. *)
Definition new (symbols : list string) (user_agent : string) : self :=
  mkself "https://api.nasdaq.com/api/quote" "historical" symbols user_agent.

Definition __init__ (E : Env) (symbols : list string) (user_agent : string)
  : M DataFrame :=
  _build_data_frame E (new symbols user_agent).

End PriceHistory.

(* ================================================================= *)
(** ** Vocabulary of the statements *)

(** The outcome of the call of [_grab_prices] that sends the [n]-th
    request of a run. *)
Definition grab_outcome (E : Env) (s : PriceHistoryNASDAQ.self) (n : nat)
  (symbol : string) (from_date to_date : date) : result value :=
  r <- upstream E n
         (PriceHistoryNASDAQ.grab_request s symbol from_date to_date) ;;
  PriceHistoryNASDAQ.parse_prices symbol r.

(** The [n]-th request, for [symbol], is answered with an [ok] response
    whose rows clean, in their order, to [batch]. *)
Definition fetched (E : Env) (s : PriceHistoryNASDAQ.self)
  (from_date to_date : date) (n : nat) (symbol : string)
  (batch : list value) : Prop :=
  exists r raw,
    upstream E n (PriceHistoryNASDAQ.grab_request s symbol from_date to_date)
      = Ok r
    /\ resp_ok r = true
    /\ PriceHistoryNASDAQ.rows_of r = Ok (VList raw)
    /\ mapM (PriceHistoryNASDAQ.clean_row symbol) raw = Ok batch.

(** The keys the cleaning loop assigns to. *)
Definition cleaned_keys : list string :=
  ["symbol"; "close"; "volume"; "open"; "high"; "low"].

(** The dictionary a row has become when every field has cleaned. *)
Definition cleaned_dict (symbol : string) (close : pyfloat) (volume : Z)
  (open high low : pyfloat) (d : dict) : dict :=
  dict_set "low" (VFloat low)
    (dict_set "high" (VFloat high)
      (dict_set "open" (VFloat open)
        (dict_set "volume" (VInt volume)
          (dict_set "close" (VFloat close)
            (dict_set "symbol" (VStr symbol) d))))).

(** The loop body of [PriceHistoryNASDAQ] with every field read from the
    row as it came. *)
Definition clean_fields (symbol : string) (d : dict) : result value :=
  x <- py_getitem (VDict d) "close" ;;
  fc <- PriceHistoryNASDAQ.clean_price x ;;
  x <- py_getitem (VDict d) "volume" ;;
  n <- PriceHistoryNASDAQ.clean_volume x ;;
  x <- py_getitem (VDict d) "open" ;;
  fo <- PriceHistoryNASDAQ.clean_price x ;;
  x <- py_getitem (VDict d) "high" ;;
  fh <- PriceHistoryNASDAQ.clean_price x ;;
  x <- py_getitem (VDict d) "low" ;;
  fl <- PriceHistoryNASDAQ.clean_price x ;;
  Ok (VDict (cleaned_dict symbol fc n fo fh fl d)).

(** An outcome of [_grab_prices] that is a list, the only kind the loop of
    [_build_data_frame] can add to [all_data]. *)
Definition is_batch (r : result value) : bool :=
  match r with
  | Ok (VList _) => true
  | _ => false
  end.

(** A row one of whose numeric fields is a string that [float] or [int]
    refuses once the markers are stripped. *)
Definition has_unparsable_field (row : value) : Prop :=
  exists d, row = VDict d /\
    ((exists k x, In k ["close"; "open"; "high"; "low"]
        /\ dict_get k d = Some x
        /\ PriceHistoryNASDAQ.clean_price x = Raise ValueError)
     \/ (exists x, dict_get "volume" d = Some x
        /\ PriceHistoryNASDAQ.clean_volume x = Raise ValueError)).

Definition all_digits (ds : chars) : Prop := forallb is_digit ds = true.

(** The characters of a plain numeral: the digits and the point. *)
Definition numeral_char (c : ascii) : bool :=
  is_digit c || Ascii.eqb c ".".

(** Groups of digits with a comma between them: [1,234]. *)
Fixpoint join_groups (groups : list chars) : chars :=
  match groups with
  | [] => []
  | [g] => g
  | g :: gs => g ++ ","%char :: join_groups gs
  end.

(** A price in the upstream notation: [$1,234.56]. *)
Definition price_string (groups : list chars) (frac : chars) : string :=
  string_of_list_ascii ("$" :: join_groups groups ++ "." :: frac)%char.

(** A volume in the upstream notation: [12,345]. *)
Definition volume_string (groups : list chars) : string :=
  string_of_list_ascii (join_groups groups).

(** [needle in hay] for strings. *)
Fixpoint str_contains (needle hay : string) : bool :=
  String.prefix needle hay
  || match hay with
     | EmptyString => false
     | String _ hay' => str_contains needle hay'
     end.

(** Whether a parameter of the request has the symbol as its key or as
    its value. *)
Definition carries (symbol : string) (params : dict) : bool :=
  existsb (fun kv =>
             String.eqb (fst kv) symbol
             || match snd kv with
                | VStr v => String.eqb v symbol
                | _ => false
                end) params.

(** A column pandas holds as it came: strings only, floats only, or
    integers of the signed 64-bit range only. *)
Definition plain_column (cells : list value) : Prop :=
  Forall (fun c => exists x, c = VStr x) cells
  \/ Forall (fun c => exists f, c = VFloat f) cells
  \/ Forall (fun c => exists n, c = VInt n /\ INT64_MIN <= n <= INT64_MAX)
            cells.

(** A date of the calendar: a month of the year and a day of that
    month. *)
Definition valid_date (d : date) : Prop :=
  1 <= month d <= 12 /\ 1 <= day d <= _days_in_month (year d) (month d).

(** The exception the loop of [_build_data_frame] ends with when a call of
    [_grab_prices] has the outcome [r], not a list: the exception of the
    call, or the [TypeError] of adding its result to [all_data]. *)
Definition failure_of (r : result value) : exn :=
  match r with
  | Raise e => e
  | Ok _ => TypeError
  end.

(** A row as the cleaning loop leaves it: a dictionary with the symbol,
    four prices that are floats and a volume that is an integer. *)
Definition typed_row (symbol : string) (row : value) : Prop :=
  exists d,
    row = VDict d
    /\ dict_get "symbol" d = Some (VStr symbol)
    /\ (forall k, In k ["close"; "open"; "high"; "low"] ->
                  exists f, dict_get k d = Some (VFloat f))
    /\ (exists n, dict_get "volume" d = Some (VInt n)).

(* ================================================================= *)
(** ** Sample answers of the servers *)

Definition quote_row (date close volume open high low : string) : value :=
  VDict [ ("date", VStr date); ("close", VStr close);
          ("volume", VStr volume); ("open", VStr open);
          ("high", VStr high); ("low", VStr low) ].

Definition quote_body (rows : list value) : value :=
  VDict [ ("data",
           VDict [ ("totalRecords", VInt (Z.of_nat (List.length rows)));
                   ("tradesTable",
                    VDict [ ("asOf", VNone); ("rows", VList rows) ]) ]);
          ("message", VNone) ].

Definition ok_response (body : value) : response :=
  mkresponse true "{...}" (Ok body).

Definition not_found : response :=
  mkresponse false "" (Raise JSONDecodeError).

(** A server that answers by URL, and with 404 for the URLs it does not
    know. *)
Definition serve (answers : list (string * response))
  : nat -> request -> result response :=
  fun _ r =>
    match find (fun a => String.eqb (fst a) (req_url r)) answers with
    | Some a => Ok (snd a)
    | None => Ok not_found
    end.

(** A date parser for [MM/DD/YYYY] and [YYYY-MM-DD]. *)
Definition parse_date (v : value) : result value :=
  match v with
  | VStr s =>
      if (String.length s =? 10)%nat then
        if String.eqb (substring 2 1 s) "/" then
          m <- py_int (substring 0 2 s) ;;
          d <- py_int (substring 3 2 s) ;;
          y <- py_int (substring 6 4 s) ;;
          Ok (VDate (mkdate y m d))
        else
          y <- py_int (substring 0 4 s) ;;
          m <- py_int (substring 5 2 s) ;;
          d <- py_int (substring 8 2 s) ;;
          Ok (VDate (mkdate y m d))
      else Raise ValueError
  | _ => Raise TypeError
  end.

Definition sample_env (answers : list (string * response)) : Env :=
  mkenv (mkdate 2024 11 4) (serve answers) (mapM parse_date)
        (fun _ _ _ => Ok (mkframe [] [])).

Definition rows_A : list value :=
  [ quote_row "11/01/2024" "$1,234.56" "12,345" "$1,230.00" "$1,240.10"
              "$1,229.95";
    quote_row "10/31/2024" "$1,228.40" "9,870" "$1,225.00" "$1,231.00"
              "$1,224.50" ].

Definition rows_B : list value :=
  [ quote_row "11/01/2024" "$45.10" "1,000,200" "$44.90" "$45.50" "$44.80" ].

Definition url_A : string := "https://api.nasdaq.com/api/quote/A/historical".
Definition url_B : string := "https://api.nasdaq.com/api/quote/B/historical".

(** Both symbols are served. *)
Definition env_AB : Env :=
  sample_env [ (url_A, ok_response (quote_body rows_A));
               (url_B, ok_response (quote_body rows_B)) ].

Definition cleaned (symbol : string) (rows : list value) : list value :=
  match mapM (PriceHistoryNASDAQ.clean_row symbol) rows with
  | Ok l => l
  | Raise _ => []
  end.

Definition cleaned_A : list value := Eval vm_compute in cleaned "A" rows_A.
Definition cleaned_B : list value := Eval vm_compute in cleaned "B" rows_B.

(** Only [B] is served: the request for [A] is answered 404. *)
Definition env_B_only : Env :=
  sample_env [ (url_B, ok_response (quote_body rows_B)) ].

(** [A] comes with a volume that is not a number. *)
Definition env_bad_volume : Env :=
  sample_env
    [ (url_A,
       ok_response
         (quote_body
            [ quote_row "11/01/2024" "$1,234.56" "N/A" "$1,230.00"
                        "$1,240.10" "$1,229.95" ]));
      (url_B, ok_response (quote_body rows_B)) ].

Definition url_oficial : string :=
  "https://api.argentinadatos.com/v1//cotizaciones/dolares/oficial".

Definition dolar_records : list dict :=
  [ [ ("casa", VStr "oficial"); ("compra", VInt 980); ("venta", VInt 1020);
      ("fecha", VStr "2024-11-01") ];
    [ ("casa", VStr "oficial"); ("compra", VInt 981); ("venta", VInt 1021);
      ("fecha", VStr "2024-11-04") ] ].

Definition env_dolar : Env :=
  sample_env [ (url_oficial, ok_response (VList (map VDict dolar_records))) ].


(** The exchange-rate server answers with records that have no [venta]. *)
Definition env_dolar_no_venta : Env :=
  sample_env
    [ (url_oficial,
       ok_response
         (VList [ VDict [ ("casa", VStr "oficial"); ("compra", VInt 980);
                          ("fecha", VStr "2024-11-01") ] ])) ].

(** [A] is answered 200 with [data: null], as for a symbol the quote
    server does not know. *)
Definition env_null_data : Env :=
  sample_env
    [ (url_A,
       ok_response (VDict [ ("data", VNone); ("message", VStr "no data") ]));
      (url_B, ok_response (quote_body rows_B)) ].

(** The rows of [B] as the table is built from them. *)
Definition records_B : list dict :=
  Eval vm_compute in
    match mapM as_dict cleaned_B with
    | Ok l => l
    | Raise _ => []
    end.

(** The rows of [B] and then of [A] as the table is built from them. *)
Definition records_BA : list dict :=
  Eval vm_compute in
    match mapM as_dict (cleaned_B ++ cleaned_A) with
    | Ok l => l
    | Raise _ => []
    end.

(** The exchange-rate server answers 500 with the body it gives for
    [oficial]. *)
Definition env_dolar_500 : Env :=
  sample_env
    [ (url_oficial,
       mkresponse false "[...]" (Ok (VList (map VDict dolar_records)))) ].

(** The exchange-rate server answers with a sell price that is an
    integer in one record, a float in the next and missing in the
    last. *)
Definition dolar_records_mixed : list dict :=
  [ [ ("venta", VInt 1020); ("fecha", VStr "2024-11-01") ];
    [ ("venta", VFloat (double_of_decimal false 10215 (-1)));
      ("fecha", VStr "2024-11-04") ];
    [ ("compra", VInt 980); ("fecha", VStr "2024-11-05") ] ].

Definition env_dolar_mixed : Env :=
  sample_env
    [ (url_oficial, ok_response (VList (map VDict dolar_records_mixed))) ].

(** The exchange-rate server answers with something that is no array. *)
Definition env_dolar_message : Env :=
  sample_env [ (url_oficial, ok_response (VStr "not found")) ].

Example py_float_ex1 :
  py_float "1234.56" = Ok (S754_finite false 5429652300748554 (-42)).
Proof. vm_compute. reflexivity. Qed.
Example py_float_ex2 :
  py_float " -1_000.5e3 " = Ok (S754_finite true 8594229559296000 (-33)).
Proof. vm_compute. reflexivity. Qed.
Example py_float_ex3 : py_float "1,234.56" = Raise ValueError.
Proof. reflexivity. Qed.
Example py_float_ex4 : py_float "N/A" = Raise ValueError.
Proof. reflexivity. Qed.
Example py_float_ex5 : py_float "-Infinity" = Ok (FInf true).
Proof. reflexivity. Qed.
(** Decimals beyond what a double holds are rounded away, and a numeral
    beyond the largest double reads as infinity. *)
Example py_float_ex6 :
  py_float "1.00000000000000000001"
  = Ok (S754_finite false 4503599627370496 (-52)).
Proof. vm_compute. reflexivity. Qed.
Example py_float_ex7 :
  py_float (string_of_list_ascii ("1"%char :: repeat "0"%char 309))
  = Ok (FInf false).
Proof. vm_compute. reflexivity. Qed.
Example py_float_ex8 :
  py_float "0.1" = Ok (S754_finite false 7205759403792794 (-56)).
Proof. vm_compute. reflexivity. Qed.
(** Halfway between two doubles the even one is taken. *)
Example py_float_ex9 :
  py_float "9007199254740993"
  = Ok (S754_finite false 4503599627370496 1).
Proof. vm_compute. reflexivity. Qed.
Example py_float_ex10 :
  py_float "9007199254740995"
  = Ok (S754_finite false 4503599627370498 1).
Proof. vm_compute. reflexivity. Qed.
Example py_int_ex1 : py_int "12345" = Ok 12345.
Proof. reflexivity. Qed.
Example py_int_ex2 : py_int "12,345" = Raise ValueError.
Proof. reflexivity. Qed.
Example py_int_ex3 : py_int "" = Raise ValueError.
Proof. reflexivity. Qed.
Example isoformat_ex : isoformat (mkdate 2024 3 9) = "2024-03-09".
Proof. reflexivity. Qed.
Example toordinal_ex : toordinal (mkdate 2024 3 9) = 738954.
Proof. reflexivity. Qed.
Example minus_six_months_ex :
  minus_six_months (mkdate 2024 8 31) = Ok (mkdate 2024 2 29).
Proof. reflexivity. Qed.

Example run_AB :
  run (PriceHistoryNASDAQ.__init__ env_AB ["A"; "B"] "ua")
  = Ok (mkframe [VInt 0; VInt 1; VInt 2]
         [ ("date", [ VDate (mkdate 2024 11 1); VDate (mkdate 2024 11 1);
                      VDate (mkdate 2024 10 31) ]);
           ("close", [ VFloat (double_of_decimal false 4510 (-2));
                       VFloat (double_of_decimal false 123456 (-2));
                       VFloat (double_of_decimal false 122840 (-2)) ]);
           ("volume", [ VInt 1000200; VInt 12345; VInt 9870 ]);
           ("open", [ VFloat (double_of_decimal false 4490 (-2));
                      VFloat (double_of_decimal false 123000 (-2));
                      VFloat (double_of_decimal false 122500 (-2)) ]);
           ("high", [ VFloat (double_of_decimal false 4550 (-2));
                      VFloat (double_of_decimal false 124010 (-2));
                      VFloat (double_of_decimal false 123100 (-2)) ]);
           ("low", [ VFloat (double_of_decimal false 4480 (-2));
                     VFloat (double_of_decimal false 122995 (-2));
                     VFloat (double_of_decimal false 122450 (-2)) ]);
           ("symbol", [ VStr "B"; VStr "A"; VStr "A" ]) ]).
Proof. vm_compute. reflexivity. Qed.

Example run_dolar :
  run (DolarPrices._build_data_frame env_dolar DolarPrices.__init__ "oficial")
  = Ok (mkframe [ VDate (mkdate 2024 11 1); VDate (mkdate 2024 11 4) ]
                [ ("venta", [ VInt 1020; VInt 1021 ]) ]).
Proof. vm_compute. reflexivity. Qed.

(** A column that mixes integers with floats, or that lacks a value in
    some record, is one of floats: the integers are converted and the
    missing values read as NaN. *)
Example from_records_floats :
  from_records dolar_records_mixed
  = mkframe [VInt 0; VInt 1; VInt 2]
      [ ("venta", [ VFloat (S754_finite false 8972014882652160 (-43));
                    VFloat (S754_finite false 8985209022185472 (-43));
                    VFloat FNaN ]);
        ("fecha", [ VStr "2024-11-01"; VStr "2024-11-04";
                    VStr "2024-11-05" ]);
        ("compra", [ VFloat FNaN; VFloat FNaN;
                     VFloat (S754_finite false 8620171161763840 (-43)) ]) ].
Proof. vm_compute. reflexivity. Qed.

Example run_dolar_mixed :
  run (DolarPrices._build_data_frame env_dolar_mixed DolarPrices.__init__
         "oficial")
  = Ok (mkframe [ VDate (mkdate 2024 11 1); VDate (mkdate 2024 11 4);
                  VDate (mkdate 2024 11 5) ]
          [ ("venta", [ VFloat (S754_finite false 8972014882652160 (-43));
                        VFloat (S754_finite false 8985209022185472 (-43));
                        VFloat FNaN ]) ]).
Proof. vm_compute. reflexivity. Qed.

Example run_dolar_message :
  run (DolarPrices._build_data_frame env_dolar_message DolarPrices.__init__
         "oficial")
  = Raise ValueError.
Proof. reflexivity. Qed.

Example run_dolar_no_venta :
  run (DolarPrices._build_data_frame env_dolar_no_venta
         DolarPrices.__init__ "oficial")
  = Raise (KeyErrorNoneOf ["venta"]).
Proof. reflexivity. Qed.

(* ================================================================= *)
(** ** Results, dictionaries and [mapM] *)

Lemma rbind_ok {A B} (r : result A) (k : A -> result B) (b : B) :
  rbind r k = Ok b -> exists a, r = Ok a /\ k a = Ok b.
Proof.
  destruct r as [a | e]; simpl; intros H.
  - exists a. split; [reflexivity | exact H].
  - discriminate H.
Qed.

Lemma mapM_Forall2 {A B} (f : A -> result B) (l : list A) (l' : list B) :
  mapM f l = Ok l' <-> Forall2 (fun a b => f a = Ok b) l l'.
Proof.
  revert l'. induction l as [| a l IH]; intros l'; simpl.
  - split; intros H.
    + injection H as <-. constructor.
    + inversion H. reflexivity.
  - split; intros H.
    + apply rbind_ok in H. destruct H as (b & Hb & H).
      apply rbind_ok in H. destruct H as (bs & Hbs & H).
      injection H as <-. constructor; [exact Hb | apply IH, Hbs].
    + inversion H as [| a0 b l0 bs Hb Hbs]; subst.
      rewrite Hb. simpl. apply IH in Hbs. rewrite Hbs. reflexivity.
Qed.

Lemma mapM_raise {A B} (f : A -> result B) (l : list A) (a : A) (e : exn) :
  In a l -> f a = Raise e -> exists e', mapM f l = Raise e'.
Proof.
  induction l as [| x l IH]; simpl; intros Hin Hf.
  - contradiction.
  - destruct Hin as [-> | Hin].
    + rewrite Hf. simpl. eauto.
    + destruct (f x); simpl; [| eauto].
      destruct (IH Hin Hf) as (e' & ->). simpl. eauto.
Qed.

Lemma dict_get_set_same (k : string) (v : value) (d : dict) :
  dict_get k (dict_set k v d) = Some v.
Proof.
  induction d as [| [k' v'] d IH]; simpl.
  - rewrite String.eqb_refl. reflexivity.
  - destruct (String.eqb k k') eqn:E; simpl.
    + rewrite String.eqb_refl. reflexivity.
    + rewrite E. exact IH.
Qed.

Lemma dict_get_set_other (k k0 : string) (v : value) (d : dict) :
  k <> k0 -> dict_get k (dict_set k0 v d) = dict_get k d.
Proof.
  intros Hne. apply String.eqb_neq in Hne.
  induction d as [| [k' v'] d IH]; simpl.
  - rewrite Hne. reflexivity.
  - destruct (String.eqb k0 k') eqn:E; simpl.
    + apply String.eqb_eq in E. subst k'. rewrite Hne. reflexivity.
    + rewrite IH. reflexivity.
Qed.

Lemma py_getitem_set_other (k k0 : string) (v : value) (d : dict) :
  k <> k0 ->
  py_getitem (VDict (dict_set k0 v d)) k = py_getitem (VDict d) k.
Proof.
  intros Hne. simpl. rewrite dict_get_set_other by exact Hne. reflexivity.
Qed.

(* ================================================================= *)
(** ** The cleaning loop of [PriceHistoryNASDAQ] *)

Module CleanFacts.
Import PriceHistoryNASDAQ.

Ltac read_through :=
  repeat (rewrite py_getitem_set_other by discriminate).

Ltac next_step :=
  match goal with
  | |- context [rbind (py_getitem (VDict ?d) ?k) _] =>
      destruct (py_getitem (VDict d) k);
      cbn [rbind py_setitem]; [| reflexivity]
  | |- context [rbind (clean_price ?x) _] =>
      destruct (clean_price x); cbn [rbind py_setitem]; [| reflexivity]
  | |- context [rbind (clean_volume ?x) _] =>
      destruct (clean_volume x); cbn [rbind py_setitem]; [| reflexivity]
  end.

Lemma clean_row_dict (symbol : string) (d : dict) :
  clean_row symbol (VDict d) = clean_fields symbol d.
Proof.
  unfold clean_row, clean_fields, cleaned_dict.
  cbn [py_setitem rbind].
  do 10 (read_through; next_step).
  reflexivity.
Qed.

Lemma clean_row_not_dict (symbol : string) (row : value) :
  (forall d, row <> VDict d) -> clean_row symbol row = Raise TypeError.
Proof.
  intros H. destruct row; try reflexivity. elim (H d). reflexivity.
Qed.

Lemma clean_row_ok (symbol : string) (row row' : value) :
  clean_row symbol row = Ok row' ->
  exists d fc n fo fh fl,
    row = VDict d /\ row' = VDict (cleaned_dict symbol fc n fo fh fl d).
Proof.
  intros H. destruct row; try discriminate H.
  rewrite clean_row_dict in H. unfold clean_fields in H.
  repeat (apply rbind_ok in H; destruct H as (? & _ & H)).
  injection H as <-. eauto 10.
Qed.

Lemma cleaned_dict_other (symbol : string) fc n fo fh fl (d : dict)
  (k : string) :
  ~ In k cleaned_keys ->
  dict_get k (cleaned_dict symbol fc n fo fh fl d) = dict_get k d.
Proof.
  intros Hk. unfold cleaned_dict.
  repeat (rewrite dict_get_set_other;
          [| intros ->; apply Hk; simpl; tauto]).
  reflexivity.
Qed.

Lemma cleaned_dict_symbol (symbol : string) fc n fo fh fl (d : dict) :
  dict_get "symbol" (cleaned_dict symbol fc n fo fh fl d)
  = Some (VStr symbol).
Proof.
  unfold cleaned_dict.
  repeat (rewrite dict_get_set_other by discriminate).
  apply dict_get_set_same.
Qed.

Lemma unparsable_row_raises (symbol : string) (row : value) :
  has_unparsable_field row -> exists e, clean_row symbol row = Raise e.
Proof.
  intros (d & -> & H). rewrite clean_row_dict. unfold clean_fields.
  assert (G : forall k x, dict_get k d = Some x ->
              py_getitem (VDict d) k = Ok x).
  { intros k x Hx. simpl. rewrite Hx. reflexivity. }
  assert (Hg : exists k x, py_getitem (VDict d) k = Ok x /\
               ((In k ["close"; "open"; "high"; "low"]
                 /\ clean_price x = Raise ValueError)
                \/ (k = "volume" /\ clean_volume x = Raise ValueError))).
  { destruct H as [(k & x & Hk & Hx & Hbad) | (x & Hx & Hbad)].
    - exists k, x. split; [apply G, Hx | left; split; assumption].
    - exists "volume", x. split; [apply G, Hx | right; split; trivial]. }
  clear H G. destruct Hg as (k & x & Hx & Hbad).
  repeat match goal with
    | |- context [rbind (py_getitem (VDict d) ?k) _] =>
        destruct (py_getitem (VDict d) k) as [? | ?] eqn:?;
        cbn [rbind]; [| eauto]
    | |- context [rbind (clean_price ?y) _] =>
        destruct (clean_price y) as [? | ?] eqn:?; cbn [rbind]; [| eauto]
    | |- context [rbind (clean_volume ?y) _] =>
        destruct (clean_volume y) as [? | ?] eqn:?; cbn [rbind]; [| eauto]
    end;
    try (eexists; reflexivity).
  exfalso.
  destruct Hbad as [(Hk & Hbad) | (-> & Hbad)]; [simpl in Hk |];
    intuition (subst; congruence).
Qed.

End CleanFacts.

(* ================================================================= *)
(** ** The fetch loop of [PriceHistoryNASDAQ] *)

Module LoopFacts.
Import PriceHistoryNASDAQ.

Section Loop.
Variable E : Env.
Variable s : self.
Variables from_date to_date : date.

Lemma grab_prices_run (symbol : string) (log : list request) :
  _grab_prices E s symbol from_date to_date log
  = (grab_outcome E s (List.length log) symbol from_date to_date,
     log ++ [grab_request s symbol from_date to_date]).
Proof.
  unfold _grab_prices, mbind, requests_get, lift, grab_outcome.
  destruct (upstream E _ _); reflexivity.
Qed.

Lemma fetched_outcome (n : nat) (symbol : string) (batch : list value) :
  fetched E s from_date to_date n symbol batch ->
  grab_outcome E s n symbol from_date to_date = Ok (VList batch).
Proof.
  intros (r & raw & Hr & Hok & Hrows & Hclean).
  unfold grab_outcome, parse_prices, clean_rows.
  rewrite Hr. cbn [rbind]. rewrite Hok, Hrows. cbn [rbind py_iter].
  rewrite Hclean. reflexivity.
Qed.

(** One turn of the loop. *)
Lemma for_symbols_step (symbol : string) (rest : list string)
  (all_data : list value) (log : list request) :
  for_symbols E s from_date to_date (symbol :: rest) all_data log
  = match grab_outcome E s (List.length log) symbol from_date to_date with
    | Ok (VList batch) =>
        for_symbols E s from_date to_date rest (batch ++ all_data)
          (log ++ [grab_request s symbol from_date to_date])
    | Ok _ =>
        (Raise TypeError, log ++ [grab_request s symbol from_date to_date])
    | Raise e => (Raise e, log ++ [grab_request s symbol from_date to_date])
    end.
Proof.
  cbn [for_symbols]. unfold mbind at 1. rewrite grab_prices_run.
  destruct (grab_outcome E s _ symbol from_date to_date) as [v | e];
    [| reflexivity].
  unfold mbind, lift. destruct v; reflexivity.
Qed.

(** When every request is answered and cleans, the rows gathered are
    the batches, the last fetched first. *)
Lemma for_symbols_fetched (symbols : list string) :
  forall (batches : list (list value)) (all_data : list value)
         (log : list request),
    List.length batches = List.length symbols ->
    (forall i symbol batch,
        nth_error symbols i = Some symbol ->
        nth_error batches i = Some batch ->
        fetched E s from_date to_date (List.length log + i)
                symbol batch) ->
    for_symbols E s from_date to_date symbols all_data log
    = (Ok (List.concat (rev batches) ++ all_data),
       log ++ map (fun symbol => grab_request s symbol from_date to_date)
                symbols).
Proof.
  induction symbols as [| symbol rest IH];
    intros batches all_data log Hlen Hall.
  - destruct batches; [| discriminate Hlen].
    simpl. rewrite app_nil_r. reflexivity.
  - destruct batches as [| batch batches]; [discriminate Hlen |].
    rewrite for_symbols_step.
    pose proof (Hall 0%nat symbol batch eq_refl eq_refl) as H0.
    rewrite Nat.add_0_r in H0. rewrite (fetched_outcome _ _ _ H0).
    rewrite (IH batches).
    + simpl. rewrite List.concat_app. simpl.
      rewrite app_nil_r, <- !app_assoc. reflexivity.
    + simpl in Hlen. lia.
    + intros i sym b Hs Hb.
      rewrite length_app. simpl.
      replace (List.length log + 1 + i)%nat
        with (List.length log + S i)%nat by lia.
      apply Hall; assumption.
Qed.

(** As soon as one call of [_grab_prices] raises, or returns something
    that is not a list, the loop raises. *)
Lemma for_symbols_raises (symbols : list string) :
  forall (i : nat) (symbol : string) (all_data : list value)
         (log : list request),
    nth_error symbols i = Some symbol ->
    is_batch (grab_outcome E s (List.length log + i) symbol
                from_date to_date) = false ->
    exists e,
      fst (for_symbols E s from_date to_date symbols all_data log)
      = Raise e.
Proof.
  induction symbols as [| sym rest IH];
    intros i symbol all_data log Hnth Hbad.
  - destruct i; discriminate Hnth.
  - rewrite for_symbols_step. destruct i as [| i].
    + injection Hnth as ->. rewrite Nat.add_0_r in Hbad.
      destruct (grab_outcome E s _ symbol from_date to_date) as [v | e];
        [| simpl; eauto].
      destruct v; simpl; eauto. discriminate Hbad.
    + destruct (grab_outcome E s _ sym from_date to_date) as [v | e];
        [| simpl; eauto].
      destruct v; simpl; eauto.
      apply (IH i symbol); [exact Hnth |].
      rewrite length_app. simpl.
      replace (List.length log + 1 + i)%nat
        with (List.length log + S i)%nat by lia.
      exact Hbad.
Qed.

(** The first answer that is not [ok], after answers that all were,
    ends the loop with a [TypeError]. *)
Lemma for_symbols_not_ok (pre : list string) :
  forall (batches : list (list value)) (symbol : string)
         (post : list string) (r : response) (all_data : list value)
         (log : list request),
    List.length batches = List.length pre ->
    (forall i sym batch,
        nth_error pre i = Some sym ->
        nth_error batches i = Some batch ->
        fetched E s from_date to_date (List.length log + i) sym batch) ->
    upstream E (List.length log + List.length pre)
      (grab_request s symbol from_date to_date)
      = Ok r ->
    resp_ok r = false ->
    fst (for_symbols E s from_date to_date (pre ++ symbol :: post)
           all_data log)
    = Raise TypeError.
Proof.
  induction pre as [| sym pre IH];
    intros batches symbol post r all_data log Hlen Hall Hr Hok.
  - cbn [app]. rewrite for_symbols_step. unfold grab_outcome.
    simpl in Hr. rewrite Nat.add_0_r in Hr.
    rewrite Hr. cbn [rbind].
    unfold parse_prices. rewrite Hok. reflexivity.
  - destruct batches as [| batch batches]; [discriminate Hlen |].
    cbn [app]. rewrite for_symbols_step.
    pose proof (Hall 0%nat sym batch eq_refl eq_refl) as H0.
    rewrite Nat.add_0_r in H0. rewrite (fetched_outcome _ _ _ H0).
    apply (IH batches symbol post r).
    + simpl in Hlen. lia.
    + intros i sy b Hs Hb. rewrite length_app. simpl.
      replace (List.length log + 1 + i)%nat
        with (List.length log + S i)%nat by lia.
      apply Hall; assumption.
    + rewrite length_app. simpl. simpl in Hr.
      replace (List.length log + 1 + List.length pre)%nat
        with (List.length log + S (List.length pre))%nat by lia.
      exact Hr.
    + exact Hok.
Qed.

End Loop.

Lemma minus_six_months_ok (d : date) :
  2 <= year d -> exists f, minus_six_months d = Ok f.
Proof.
  intros Hy. unfold minus_six_months.
  destruct (month d - 6 <? 1).
  - destruct (year d - 1 <? 1) eqn:E; [apply Z.ltb_lt in E; lia |].
    eauto.
  - destruct (year d <? 1) eqn:E; [apply Z.ltb_lt in E; lia |].
    eauto.
Qed.

(** The constructor, once the start of the window is known. *)
Lemma init_run (E : Env) (symbols : list string) (user_agent : string)
  (from_date : date) :
  minus_six_months (today E) = Ok from_date ->
  run (__init__ E symbols user_agent)
  = (all_data <-
       run (for_symbols E (new symbols user_agent) from_date (today E)
              symbols []) ;;
     frame_of E all_data).
Proof.
  intros Hf. unfold run, __init__, _build_data_frame.
  rewrite Hf. unfold mbind, lift. cbn [fst snd _symbols new].
  destruct (for_symbols E _ from_date (today E) symbols [] [])
    as [[all_data | e] log]; reflexivity.
Qed.

End LoopFacts.

(* ================================================================= *)
(** ** Tables built from records *)

Module TableFacts.


Lemma add_key_in (keys : list string) (k k' : string) :
  In k' (add_key keys k) <-> In k' keys \/ k' = k.
Proof.
  unfold add_key. destruct (existsb (String.eqb k) keys) eqn:Ex.
  - apply existsb_exists in Ex. destruct Ex as (x & Hx & Heq).
    apply String.eqb_eq in Heq. subst x. split; [tauto |].
    intros [H | ->]; assumption.
  - rewrite in_app_iff. simpl. intuition congruence.
Qed.



Lemma dict_get_in_keys (k : string) (r : dict) :
  dict_get k r <> None -> In k (map fst r).
Proof.
  induction r as [| [k' v] r IH]; simpl; intros H.
  - congruence.
  - destruct (String.eqb k k') eqn:Ek.
    + apply String.eqb_eq in Ek. left. symmetry. exact Ek.
    + right. apply IH, H.
Qed.


Lemma column_of_keys (f : string -> list value) (keys : list string)
  (k : string) :
  In k keys -> column k (map (fun k => (k, f k)) keys) = Some (f k).
Proof.
  induction keys as [| k' keys IH]; simpl; intros H; [contradiction |].
  destruct (String.eqb k k') eqn:Ek.
  - apply String.eqb_eq in Ek. subst k'. reflexivity.
  - destruct H as [-> | H]; [rewrite String.eqb_refl in Ek; discriminate |].
    apply IH, H.
Qed.


Lemma column_set_other (k k0 : string) (c : list value)
  (cols : list (string * list value)) :
  k <> k0 -> column k (set_column k0 c cols) = column k cols.
Proof.
  intros Hne. apply String.eqb_neq in Hne.
  induction cols as [| [k' c'] cols IH]; simpl.
  - rewrite Hne. reflexivity.
  - destruct (String.eqb k0 k') eqn:Ek; simpl.
    + apply String.eqb_eq in Ek. subst k'. rewrite Hne. reflexivity.
    + rewrite IH. reflexivity.
Qed.


Lemma column_of_keys_inv (f : string -> list value) (keys : list string)
  (k : string) (c : list value) :
  column k (map (fun k => (k, f k)) keys) = Some c -> c = f k.
Proof.
  induction keys as [| k' keys IH]; simpl; intros H; [discriminate H |].
  destruct (String.eqb k k') eqn:Ek.
  - apply String.eqb_eq in Ek. subst k'. congruence.
  - apply IH, H.
Qed.

Lemma add_key_present (keys : list string) (k : string) :
  In k keys -> add_key keys k = keys.
Proof.
  intros H. unfold add_key.
  replace (existsb (String.eqb k) keys) with true; [reflexivity |].
  symmetry. apply existsb_exists. exists k. split; [exact H |].
  apply String.eqb_refl.
Qed.

Lemma fold_add_key_present (ks keys : list string) :
  (forall k, In k ks -> In k keys) -> fold_left add_key ks keys = keys.
Proof.
  induction ks as [| k ks IH]; intros H; simpl; [reflexivity |].
  rewrite add_key_present by (apply H; left; reflexivity).
  apply IH. intros k' Hk'. apply H. right. exact Hk'.
Qed.

Lemma fold_add_key_fresh (ks : list string) :
  forall keys, NoDup (keys ++ ks) -> fold_left add_key ks keys = keys ++ ks.
Proof.
  induction ks as [| k ks IH]; intros keys H; simpl.
  - rewrite app_nil_r. reflexivity.
  - assert (Hk : add_key keys k = keys ++ [k]).
    { unfold add_key.
      destruct (existsb (String.eqb k) keys) eqn:Ex; [| reflexivity].
      exfalso. apply existsb_exists in Ex. destruct Ex as (x & Hx & Heq).
      apply String.eqb_eq in Heq. subst x.
      apply NoDup_remove_2 in H. apply H, in_or_app. left. exact Hx. }
    rewrite Hk, IH.
    + rewrite <- app_assoc. reflexivity.
    + rewrite <- app_assoc. exact H.
Qed.

Lemma union_keys_uniform (recs : list dict) (ks : list string) :
  recs <> [] -> NoDup ks ->
  Forall (fun r => map fst r = ks) recs ->
  union_keys recs = ks.
Proof.
  intros Hne Hks Hall. unfold union_keys.
  destruct recs as [| r recs]; [contradiction |].
  inversion Hall as [| r0 recs0 Hr Hrest]; subst r0 recs0.
  simpl. rewrite Hr, (fold_add_key_fresh ks [] Hks). simpl.
  clear Hall Hne Hr. induction Hrest as [| r' recs Hr' _ IH]; simpl.
  - reflexivity.
  - rewrite Hr', fold_add_key_present by (intros k Hk; exact Hk).
    exact IH.
Qed.

Lemma set_column_of_keys (f : string -> list value) (c : list value)
  (k : string) (keys : list string) :
  NoDup keys -> In k keys ->
  set_column k c (map (fun k' => (k', f k')) keys)
  = map (fun k' => (k', if String.eqb k' k then c else f k')) keys.
Proof.
  induction keys as [| k' keys IH]; intros Hnd Hin; [contradiction |].
  inversion Hnd as [| k0 keys0 Hk' Hnd']; subst k0 keys0.
  simpl. destruct (String.eqb k k') eqn:Ek.
  - apply String.eqb_eq in Ek. subst k'. rewrite String.eqb_refl.
    f_equal. apply map_ext_in. intros k' Hk.
    destruct (String.eqb k' k) eqn:E; [| reflexivity].
    apply String.eqb_eq in E. subst k'. contradiction.
  - rewrite String.eqb_sym, Ek. f_equal. apply IH; [exact Hnd' |].
    destruct Hin as [-> | Hin]; [| exact Hin].
    rewrite String.eqb_refl in Ek. discriminate Ek.
Qed.

Lemma infer_column_length (cells : list value) :
  List.length (infer_column cells) = List.length cells.
Proof.
  unfold infer_column. destruct (becomes_float _); [| reflexivity].
  apply length_map.
Qed.

Lemma scan_cells_integers (cells : list value) :
  Forall (fun c => exists n, c = VInt n /\ INT64_MIN <= n <= INT64_MAX)
         cells ->
  forall s,
    null_ s = false -> nan_ s = false -> float_ s = false ->
    uint_ s = false ->
    becomes_float (scan_cells cells s) = false.
Proof.
  induction 1 as [| c cells (n & -> & Hn) _ IH];
    intros s Hnull Hnan Hfloat Huint.
  - simpl. unfold becomes_float. rewrite Hnull, Hnan, Hfloat.
    destruct (object_ s), (bool_ s); reflexivity.
  - cbn [scan_cells]. rewrite Hnull, Huint.
    assert (H1 : (INT64_MAX <? n) = false) by (apply Z.ltb_ge; lia).
    assert (H2 : (UINT64_MAX <? n) = false).
    { apply Z.ltb_ge. unfold UINT64_MAX, INT64_MAX in *. lia. }
    assert (H3 : (n <? INT64_MIN) = false) by (apply Z.ltb_ge; lia).
    rewrite H1, H2, H3. cbn [andb orb].
    apply IH; cbn; solve [reflexivity | assumption].
Qed.

(** A column of strings, of floats, or of integers of the signed
    64-bit range is held as it came. *)
Lemma infer_column_plain (cells : list value) :
  plain_column cells -> infer_column cells = cells.
Proof.
  unfold infer_column. intros [H | [H | H]].
  - destruct H as [| c cells (x & ->) _]; reflexivity.
  - destruct (becomes_float _); [| reflexivity].
    induction H as [| c cells (f & ->) _ IH]; simpl; [reflexivity |].
    rewrite IH. reflexivity.
  - rewrite (scan_cells_integers cells H); reflexivity.
Qed.

(** The table of [PriceHistoryNASDAQ] holds its rows in the order of
    the rows it was built from: every column but the parsed [date] is
    the cells of those rows under the key, first row first, as pandas
    types the column. *)
Lemma frame_of_rows (E : Env) (all_data : list value) (df : DataFrame) :
  PriceHistoryNASDAQ.frame_of E all_data = Ok df ->
  exists recs,
    mapM as_dict all_data = Ok recs
    /\ df_index df = range_index (List.length recs)
    /\ (forall k c, k <> "date" ->
                    column k (df_columns df) = Some c ->
                    c = infer_column (map (cell k) recs)).
Proof.
  unfold PriceHistoryNASDAQ.frame_of, pd_DataFrame. intros H.
  apply rbind_ok in H. destruct H as (df0 & Hdf0 & H).
  apply rbind_ok in Hdf0. destruct Hdf0 as (recs & Hrecs & Hdf0).
  injection Hdf0 as <-.
  apply rbind_ok in H. destruct H as (dates & _ & H).
  apply rbind_ok in H. destruct H as (parsed & _ & H).
  injection H as <-.
  exists recs. split; [exact Hrecs |]. split; [reflexivity |].
  intros k c Hk Hc. cbn [df_setitem df_columns from_records] in Hc.
  rewrite column_set_other in Hc by exact Hk.
  apply (column_of_keys_inv
           (fun k => infer_column (map (cell k) recs))) in Hc.
  exact Hc.
Qed.

End TableFacts.

(* ================================================================= *)
(** ** [PriceHistoryNASDAQ]: the claims on the fetch *)

Module NasdaqClaims.
Import PriceHistoryNASDAQ CleanFacts LoopFacts TableFacts.

(** Whatever came before, an answer that is not [ok] after answers that
    all were and cleaned makes the constructor raise [TypeError]:
    [_grab_prices] returns [None] and [None + all_data] is refused. *)
Lemma not_ok_answer_raises (E : Env) (pre post : list string)
  (symbol user_agent : string) (from_date : date)
  (batches : list (list value)) (r : response) :
  minus_six_months (today E) = Ok from_date ->
  List.length batches = List.length pre ->
  (forall i sym batch,
      nth_error pre i = Some sym ->
      nth_error batches i = Some batch ->
      fetched E (new (pre ++ symbol :: post) user_agent) from_date
              (today E) i sym batch) ->
  upstream E (List.length pre)
    (grab_request (new (pre ++ symbol :: post) user_agent) symbol
       from_date (today E))
    = Ok r ->
  resp_ok r = false ->
  run (__init__ E (pre ++ symbol :: post) user_agent) = Raise TypeError.
Proof.
  intros Hf Hlen Hall Hr Hok.
  rewrite (init_run E _ user_agent from_date Hf).
  unfold run.
  rewrite (for_symbols_not_ok E _ from_date (today E) pre batches symbol
             post r [] [] Hlen Hall Hr Hok).
  reflexivity.
Qed.

(** C1, at the failing input.  Symbols ["A"; "B"]: the request for "A"
    is answered 404 and "B" would be served.  The constructor does not
    complete with the rows of "B": it raises [TypeError], and the request
    for "B" is never sent. *)
Theorem C1_not_ok_answer_aborts_construction :
  upstream env_B_only 0
    (grab_request (new ["A"; "B"] "ua") "A" (mkdate 2024 5 4)
       (mkdate 2024 11 4))
  = Ok not_found
  /\ run (__init__ env_B_only ["B"] "ua")
     = frame_of env_B_only cleaned_B
  /\ run (__init__ env_B_only ["A"; "B"] "ua") = Raise TypeError
  /\ map req_url (sent (__init__ env_B_only ["A"; "B"] "ua")) = [url_A].
Proof. repeat split; vm_compute; reflexivity. Qed.

(** C3, at the failing input.  With no symbols the constructor sends
    nothing and raises [KeyError] on the [date] column of a table that
    has no columns. *)
Theorem C3_empty_symbols_raise_KeyError (E : Env) (user_agent : string) :
  2 <= year (today E) ->
  run (__init__ E [] user_agent) = Raise (KeyError "date")
  /\ sent (__init__ E [] user_agent) = [].
Proof.
  intros Hy. destruct (minus_six_months_ok _ Hy) as (f & Hf). split.
  - rewrite (init_run E [] user_agent f Hf). reflexivity.
  - unfold sent, __init__, _build_data_frame, mbind, lift.
    rewrite Hf. reflexivity.
Qed.

Lemma C3_empty_symbols_witness :
  run (__init__ env_AB [] "ua") = Raise (KeyError "date")
  /\ sent (__init__ env_AB [] "ua") = [].
Proof.
  apply (C3_empty_symbols_raise_KeyError env_AB "ua").
  vm_compute. discriminate.
Defined.

(** C5.  The request [_grab_prices] sends carries, as [limit], the
    number of days from [from_date] to [to_date], and 0 when the two
    dates are the same. *)
Theorem C5_limit_is_the_day_count :
  (forall (E : Env) (s : self) (symbol : string) (from_date to_date : date)
          (log : list request),
      exists r,
        snd (_grab_prices E s symbol from_date to_date log) = log ++ [r]
        /\ dict_get "limit" (req_params r)
           = Some (VInt (toordinal to_date - toordinal from_date)))
  /\ (forall (E : Env) (s : self) (symbol : string) (d : date)
             (log : list request),
         exists r,
           snd (_grab_prices E s symbol d d log) = log ++ [r]
           /\ dict_get "limit" (req_params r) = Some (VInt 0)).
Proof.
  split.
  - intros E s symbol from_date to_date log.
    exists (grab_request s symbol from_date to_date).
    rewrite grab_prices_run. split; reflexivity.
  - intros E s symbol d log.
    exists (grab_request s symbol d d).
    rewrite grab_prices_run. split; [reflexivity |].
    cbn. unfold days_between. rewrite Z.sub_diag. reflexivity.
Qed.

(** C6.  When every symbol is answered with rows that clean, the rows
    gathered are the batches in the reverse of the order of the symbols,
    each batch whole and in the order upstream gave it, and the table is
    built from that sequence.  When moreover the rows all have the same
    keys, [date] among them, each column is of strings, of floats or of
    64-bit integers, and the dates parse, the table is this one: a row
    label 0, 1, ... per row gathered, a column per key in the order of
    the keys, and in each column the cells of the rows in the order
    gathered, the parsed dates under [date]. *)
Theorem C6_batches_in_reverse_symbol_order (E : Env)
  (symbols : list string) (user_agent : string) (from_date : date)
  (batches : list (list value)) :
  minus_six_months (today E) = Ok from_date ->
  List.length batches = List.length symbols ->
  (forall i symbol batch,
      nth_error symbols i = Some symbol ->
      nth_error batches i = Some batch ->
      fetched E (new symbols user_agent) from_date (today E) i
              symbol batch) ->
  run (for_symbols E (new symbols user_agent) from_date (today E)
         symbols [])
  = Ok (List.concat (rev batches))
  /\ run (__init__ E symbols user_agent)
     = frame_of E (List.concat (rev batches))
  /\ (forall (recs : list dict) (keys : list string) (dates : list value),
         mapM as_dict (List.concat (rev batches)) = Ok recs ->
         recs <> [] ->
         NoDup keys ->
         In "date" keys ->
         Forall (fun r => map fst r = keys) recs ->
         (forall k, In k keys -> plain_column (map (cell k) recs)) ->
         to_datetime E (map (cell "date") recs) = Ok dates ->
         run (__init__ E symbols user_agent)
         = Ok (mkframe
                 (range_index (List.length recs))
                 (map (fun k =>
                         (k, if String.eqb k "date" then dates
                             else map (cell k) recs))
                      keys))).
Proof.
  intros Hf Hlen Hall.
  assert (Hloop :
    run (for_symbols E (new symbols user_agent) from_date (today E)
           symbols [])
    = Ok (List.concat (rev batches))).
  { unfold run.
    rewrite (for_symbols_fetched E (new symbols user_agent) from_date
               (today E) symbols batches [] [] Hlen Hall).
    simpl. rewrite app_nil_r. reflexivity. }
  assert (Hinit :
    run (__init__ E symbols user_agent)
    = frame_of E (List.concat (rev batches))).
  { rewrite (init_run E symbols user_agent from_date Hf), Hloop.
    reflexivity. }
  split; [exact Hloop |]. split; [exact Hinit |].
  intros recs keys dates Hrecs Hne Hnd Hdate Hkeys Hplain Hdates.
  rewrite Hinit. unfold frame_of, pd_DataFrame. rewrite Hrecs.
  cbn [rbind]. unfold from_records.
  rewrite (union_keys_uniform recs keys Hne Hnd Hkeys).
  assert (Hmap :
    map (fun k => (k, infer_column (map (cell k) recs))) keys
    = map (fun k => (k, map (cell k) recs)) keys).
  { apply map_ext_in. intros k Hk.
    rewrite infer_column_plain by (apply Hplain, Hk). reflexivity. }
  rewrite Hmap. unfold df_getitem. cbn [df_columns].
  rewrite (column_of_keys (fun k => map (cell k) recs)) by exact Hdate.
  cbn [rbind]. rewrite Hdates. cbn [rbind].
  unfold df_setitem. cbn [df_index df_columns].
  rewrite (set_column_of_keys (fun k => map (cell k) recs))
    by assumption.
  reflexivity.
Qed.

Lemma C6_batches_witness :
  run (for_symbols env_AB (new ["A"; "B"] "ua") (mkdate 2024 5 4)
         (mkdate 2024 11 4) ["A"; "B"] [])
  = Ok (cleaned_B ++ cleaned_A)
  /\ run (__init__ env_AB ["A"; "B"] "ua")
     = frame_of env_AB (cleaned_B ++ cleaned_A)
  /\ run (__init__ env_AB ["A"; "B"] "ua")
     = Ok (mkframe [VInt 0; VInt 1; VInt 2]
            [ ("date", [ VDate (mkdate 2024 11 1); VDate (mkdate 2024 11 1);
                         VDate (mkdate 2024 10 31) ]);
              ("close", [ VFloat (double_of_decimal false 4510 (-2));
                          VFloat (double_of_decimal false 123456 (-2));
                          VFloat (double_of_decimal false 122840 (-2)) ]);
              ("volume", [ VInt 1000200; VInt 12345; VInt 9870 ]);
              ("open", [ VFloat (double_of_decimal false 4490 (-2));
                         VFloat (double_of_decimal false 123000 (-2));
                         VFloat (double_of_decimal false 122500 (-2)) ]);
              ("high", [ VFloat (double_of_decimal false 4550 (-2));
                         VFloat (double_of_decimal false 124010 (-2));
                         VFloat (double_of_decimal false 123100 (-2)) ]);
              ("low", [ VFloat (double_of_decimal false 4480 (-2));
                        VFloat (double_of_decimal false 122995 (-2));
                        VFloat (double_of_decimal false 122450 (-2)) ]);
              ("symbol", [ VStr "B"; VStr "A"; VStr "A" ]) ]).
Proof.
  assert (H : forall i symbol batch,
             nth_error ["A"; "B"] i = Some symbol ->
             nth_error [cleaned_A; cleaned_B] i = Some batch ->
             fetched env_AB (new ["A"; "B"] "ua") (mkdate 2024 5 4)
                     (today env_AB) i symbol batch).
  { intros i symbol batch Hs Hb.
    destruct i as [| [| i]]; simpl in Hs, Hb.
    - injection Hs as <-. injection Hb as <-.
      exists (ok_response (quote_body rows_A)), rows_A.
      repeat split; reflexivity.
    - injection Hs as <-. injection Hb as <-.
      exists (ok_response (quote_body rows_B)), rows_B.
      repeat split; reflexivity.
    - destruct i; discriminate Hs. }
  destruct (C6_batches_in_reverse_symbol_order env_AB ["A"; "B"] "ua"
              (mkdate 2024 5 4) [cleaned_A; cleaned_B] eq_refl eq_refl H)
    as (A & B & C).
  split; [exact A |]. split; [exact B |].
  assert (Hplain : forall k,
             In k ["date"; "close"; "volume"; "open"; "high"; "low";
                   "symbol"] ->
             plain_column (map (cell k) records_BA)).
  { intros k Hk. simpl in Hk.
    destruct Hk as [<- | [<- | [<- | [<- | [<- | [<- | [<- | []]]]]]]].
    - left. repeat constructor; eexists; reflexivity.
    - right. left. repeat constructor; eexists; reflexivity.
    - right. right.
      repeat constructor; eexists;
        (split; [reflexivity | vm_compute; split; discriminate]).
    - right. left. repeat constructor; eexists; reflexivity.
    - right. left. repeat constructor; eexists; reflexivity.
    - right. left. repeat constructor; eexists; reflexivity.
    - left. repeat constructor; eexists; reflexivity. }
  assert (Hnd : NoDup ["date"; "close"; "volume"; "open"; "high"; "low";
                       "symbol"]).
  { repeat constructor; simpl; intuition discriminate. }
  assert (Hkeys : Forall (fun r => map fst r
                          = ["date"; "close"; "volume"; "open"; "high";
                             "low"; "symbol"]) records_BA).
  { repeat constructor. }
  assert (Hne : records_BA <> []) by discriminate.
  exact (C records_BA
           ["date"; "close"; "volume"; "open"; "high"; "low"; "symbol"]
           [ VDate (mkdate 2024 11 1); VDate (mkdate 2024 11 1);
             VDate (mkdate 2024 10 31) ]
           eq_refl Hne Hnd (or_introl eq_refl) Hkeys Hplain eq_refl).
Defined.

(** C8.  When the answer for one of the symbols holds a row with a
    numeric field that does not parse, the loop over the symbols raises
    and the constructor raises the same exception: no table is built. *)
Theorem C8_unparsable_field_aborts_construction (E : Env)
  (symbols : list string) (user_agent : string) (from_date : date)
  (i : nat) (symbol : string) (r : response) (raw : list value)
  (row : value) :
  minus_six_months (today E) = Ok from_date ->
  nth_error symbols i = Some symbol ->
  upstream E i
    (grab_request (new symbols user_agent) symbol from_date (today E))
    = Ok r ->
  resp_ok r = true ->
  rows_of r = Ok (VList raw) ->
  In row raw ->
  has_unparsable_field row ->
  exists e,
    run (for_symbols E (new symbols user_agent) from_date (today E)
           symbols [])
    = Raise e
    /\ run (__init__ E symbols user_agent) = Raise e.
Proof.
  intros Hf Hnth Hr Hok Hrows Hin Hbad.
  destruct (unparsable_row_raises symbol row Hbad) as (e0 & He0).
  destruct (mapM_raise (clean_row symbol) raw row e0 Hin He0)
    as (e1 & He1).
  assert (Hout :
    is_batch (grab_outcome E (new symbols user_agent)
                (List.length (@nil request) + i) symbol from_date
                (today E)) = false).
  { unfold grab_outcome, parse_prices, clean_rows. simpl List.length.
    simpl Nat.add. rewrite Hr. cbn [rbind]. rewrite Hok, Hrows.
    cbn [rbind py_iter]. rewrite He1. reflexivity. }
  destruct (for_symbols_raises E (new symbols user_agent) from_date
              (today E) symbols i symbol [] [] Hnth Hout) as (e & He).
  exists e. split; [exact He |].
  rewrite (init_run E symbols user_agent from_date Hf).
  unfold run. rewrite He. reflexivity.
Qed.

Lemma C8_unparsable_field_witness :
  exists e,
    run (for_symbols env_bad_volume (new ["B"; "A"] "ua")
           (mkdate 2024 5 4) (mkdate 2024 11 4) ["B"; "A"] [])
    = Raise e
    /\ run (__init__ env_bad_volume ["B"; "A"] "ua") = Raise e.
Proof.
  apply (C8_unparsable_field_aborts_construction env_bad_volume
           ["B"; "A"] "ua" (mkdate 2024 5 4) 1 "A"
           (ok_response
              (quote_body
                 [ quote_row "11/01/2024" "$1,234.56" "N/A" "$1,230.00"
                             "$1,240.10" "$1,229.95" ]))
           [ quote_row "11/01/2024" "$1,234.56" "N/A" "$1,230.00"
                       "$1,240.10" "$1,229.95" ]
           (quote_row "11/01/2024" "$1,234.56" "N/A" "$1,230.00"
                      "$1,240.10" "$1,229.95")).
  - reflexivity.
  - reflexivity.
  - reflexivity.
  - reflexivity.
  - reflexivity.
  - left. reflexivity.
  - eexists. split; [reflexivity |].
    right. exists (VStr "N/A"). split; reflexivity.
Defined.

(** C10.  The cleaning loop turns every row, a dictionary, into a
    dictionary that reads as before under every key other than
    [symbol], [close], [volume], [open], [high] and [low], the key
    [date] among them, and that reads the symbol under [symbol]. *)
Theorem C10_cleaning_keeps_the_other_fields (symbol : string)
  (rows rows' : list value) :
  mapM (clean_row symbol) rows = Ok rows' ->
  Forall2
    (fun row row' =>
       exists d d',
         row = VDict d /\ row' = VDict d'
         /\ (forall k, ~ In k cleaned_keys ->
                       dict_get k d' = dict_get k d)
         /\ dict_get "date" d' = dict_get "date" d
         /\ dict_get "symbol" d' = Some (VStr symbol))
    rows rows'.
Proof.
  intros H. apply mapM_Forall2 in H.
  induction H as [| row row' rows rows' Hrow _ IH]; constructor;
    [| exact IH].
  destruct (clean_row_ok symbol row row' Hrow)
    as (d & fc & n & fo & fh & fl & -> & ->).
  exists d, (cleaned_dict symbol fc n fo fh fl d).
  repeat split.
  - intros k Hk. apply cleaned_dict_other, Hk.
  - apply cleaned_dict_other. simpl.
    intros H. repeat (destruct H as [H | H]; [discriminate H |]).
    exact H.
  - apply cleaned_dict_symbol.
Qed.

Lemma C10_cleaning_witness :
  Forall2
    (fun row row' =>
       exists d d',
         row = VDict d /\ row' = VDict d'
         /\ (forall k, ~ In k cleaned_keys ->
                       dict_get k d' = dict_get k d)
         /\ dict_get "date" d' = dict_get "date" d
         /\ dict_get "symbol" d' = Some (VStr "A"))
    rows_A cleaned_A.
Proof.
  apply (C10_cleaning_keeps_the_other_fields "A" rows_A cleaned_A).
  reflexivity.
Defined.

End NasdaqClaims.

(* ================================================================= *)
(** ** The request: its URL, its parameters, its window *)

Module RequestClaims.
Import LoopFacts.

(** C2 as stated fails for the symbol "AAPL".  In [PriceHistoryNASDAQ]
    the URL built for it contains it and no parameter of the request
    carries it; in the older draft [PriceHistory], called with a window of
    dates, the URL leaves it out and still no parameter of the request
    sent carries it. *)
Lemma C2_url_contains_symbol_parameters_do_not :
  ~ ((str_contains "AAPL"
        (PriceHistoryNASDAQ._build_url
           (PriceHistoryNASDAQ.new ["AAPL"] "ua") "AAPL") = false
      /\ carries "AAPL"
           (req_params
              (PriceHistoryNASDAQ.grab_request
                 (PriceHistoryNASDAQ.new ["AAPL"] "ua") "AAPL"
                 (mkdate 2024 5 4) (mkdate 2024 11 4))) = true)
     \/ (str_contains "AAPL"
           (PriceHistory._build_url (PriceHistory.new ["AAPL"] "ua") "AAPL")
         = false
         /\ existsb (fun r => carries "AAPL" (req_params r))
              (sent (PriceHistory._grab_prices env_AB
                       (PriceHistory.new ["AAPL"] "ua") "AAPL"
                       (VDate (mkdate 2024 5 4)) (VDate (mkdate 2024 11 4))))
            = true)).
Proof.
  vm_compute. intros [[H _] | [_ H]]; discriminate H.
Qed.

(** C2, amended.  The URL of the request for a symbol is the base
    endpoint, the symbol and [historical] joined by slashes, so the
    symbol is a segment of the path; the parameters are [fromdate],
    [todate], [assetclass] and [limit], computed from the window alone,
    the same for every symbol. *)
Theorem C2_symbol_is_a_path_segment (symbols : list string)
  (user_agent symbol : string) (from_date to_date : date) :
  let s := PriceHistoryNASDAQ.new symbols user_agent in
  let r := PriceHistoryNASDAQ.grab_request s symbol from_date to_date in
  PriceHistoryNASDAQ._build_url s symbol
  = ("https://api.nasdaq.com/api/quote/" ++ symbol ++ "/historical")%string
  /\ req_url r = PriceHistoryNASDAQ._build_url s symbol
  /\ req_params r
     = [ ("fromdate", VStr (isoformat from_date));
         ("todate", VStr (isoformat to_date));
         ("assetclass", VStr "stocks");
         ("limit", VInt (days_between to_date from_date)) ]
  /\ (forall other : string,
         req_params
           (PriceHistoryNASDAQ.grab_request s other from_date to_date)
         = req_params r)
  /\ (forall (E : Env) (log : list request),
         snd (PriceHistoryNASDAQ._grab_prices E s symbol from_date to_date
                log)
         = log ++ [r]).
Proof.
  intros s r. repeat split.
  intros E log. unfold r. rewrite grab_prices_run. reflexivity.
Qed.

(** The older draft leaves the symbol out of the URL altogether. *)
Lemma PriceHistory_url_has_no_symbol (symbols : list string)
  (user_agent symbol : string) :
  PriceHistory._build_url (PriceHistory.new symbols user_agent) symbol
  = "https://api.nasdaq.com/api/quote/historical".
Proof. reflexivity. Qed.

(** The requests of the loop, in the order sent, are those of the first
    symbols of the list. *)
Lemma for_symbols_log (E : Env) (s : PriceHistoryNASDAQ.self)
  (from_date to_date : date) (symbols : list string) :
  forall (all_data : list value) (log : list request),
  exists k,
    snd (PriceHistoryNASDAQ.for_symbols E s from_date to_date symbols
           all_data log)
    = log ++ map (fun symbol =>
                    PriceHistoryNASDAQ.grab_request s symbol from_date
                      to_date)
                 (firstn k symbols).
Proof.
  induction symbols as [| symbol rest IH]; intros all_data log.
  - exists 0%nat. simpl. rewrite app_nil_r. reflexivity.
  - rewrite for_symbols_step.
    destruct (grab_outcome E s _ symbol from_date to_date) as [v | e].
    + destruct v;
        try (exists 1%nat; reflexivity).
      destruct (IH (l ++ all_data)
                  (log ++ [PriceHistoryNASDAQ.grab_request s symbol
                             from_date to_date])) as (k & Hk).
      exists (S k). rewrite Hk, <- app_assoc. reflexivity.
    + exists 1%nat. reflexivity.
Qed.

(** [PriceHistoryNASDAQ] asks for the window from six months before
    today to today in every request it sends. *)
Lemma nasdaq_window (E : Env) (symbols : list string)
  (user_agent : string) (from_date : date) :
  minus_six_months (today E) = Ok from_date ->
  Forall (fun r =>
            dict_get "fromdate" (req_params r)
            = Some (VStr (isoformat from_date))
            /\ dict_get "todate" (req_params r)
               = Some (VStr (isoformat (today E))))
         (sent (PriceHistoryNASDAQ.__init__ E symbols user_agent)).
Proof.
  intros Hf.
  unfold sent, PriceHistoryNASDAQ.__init__,
    PriceHistoryNASDAQ._build_data_frame.
  rewrite Hf. unfold mbind at 1. unfold lift at 1.
  unfold mbind, lift.
  destruct (for_symbols_log E (PriceHistoryNASDAQ.new symbols user_agent)
              from_date (today E) symbols [] []) as (k & Hk).
  cbn [PriceHistoryNASDAQ._symbols PriceHistoryNASDAQ.new].
  destruct (PriceHistoryNASDAQ.for_symbols E _ from_date (today E)
              symbols [] []) as [[all_data | e] log];
    simpl in Hk; subst log; simpl;
    apply Forall_forall; intros r Hr;
    apply in_map_iff in Hr; destruct Hr as (symbol & <- & _);
    split; reflexivity.
Qed.

(** [PriceHistoryYF], called without a window, downloads from six months
    before today to today. *)
Lemma yf_window (E : Env) (symbols : list string) (from_date : date) :
  minus_six_months (today E) = Ok from_date ->
  PriceHistoryYF.__init__ E symbols
  = yf_download E symbols (VDate from_date) (VDate (today E)).
Proof.
  intros Hf. unfold PriceHistoryYF.__init__,
    PriceHistoryYF._build_data_frame.
  simpl. rewrite Hf. reflexivity.
Qed.

(** C9, at the failing input.  In the older draft [PriceHistory],
    [to_date] is the empty list and not today's date: subtracting six
    months from it raises [TypeError], whatever the symbols, before any
    request is sent. *)
Theorem C9_older_draft_has_no_window (E : Env) (symbols : list string)
  (user_agent : string) :
  run (PriceHistory.__init__ E symbols user_agent) = Raise TypeError
  /\ sent (PriceHistory.__init__ E symbols user_agent) = [].
Proof. split; reflexivity. Qed.

End RequestClaims.

(* ================================================================= *)
(** ** [DolarPrices]: the table *)

Module DolarClaims.
Import DolarPrices TableFacts.






End DolarClaims.

(* ================================================================= *)
(** ** Stripping the markers and reading the numbers *)

Module NumeralFacts.
Import PriceHistoryNASDAQ CleanFacts.

Lemma numeral_char_plain (c : ascii) :
  numeral_char c = true ->
  is_space c = false
  /\ Ascii.eqb c "_" = false
  /\ Ascii.eqb c "-" = false
  /\ Ascii.eqb c "+" = false
  /\ Ascii.eqb c "$" = false
  /\ Ascii.eqb c "," = false.
Proof.
  destruct c as [[] [] [] [] [] [] [] []]; intros H;
    try discriminate H; repeat split; reflexivity.
Qed.

Lemma digit_numeral (c : ascii) : is_digit c = true -> numeral_char c = true.
Proof. intros H. unfold numeral_char. rewrite H. reflexivity. Qed.

Lemma digit_not_point (c : ascii) :
  is_digit c = true -> Ascii.eqb c "." = false.
Proof.
  destruct c as [[] [] [] [] [] [] [] []]; intros H;
    try discriminate H; reflexivity.
Qed.

Lemma digits_numeral (ds : chars) :
  all_digits ds -> forallb numeral_char ds = true.
Proof.
  unfold all_digits. rewrite !forallb_forall.
  intros H c Hc. apply digit_numeral, H, Hc.
Qed.

Lemma filter_all {A} (p : A -> bool) (l : list A) :
  forallb p l = true -> filter p l = l.
Proof.
  induction l as [| a l IH]; simpl; [reflexivity |].
  intros H. apply andb_prop in H. destruct H as [Ha Hl].
  rewrite Ha, IH by exact Hl. reflexivity.
Qed.

Lemma forallb_weaken {A} (p q : A -> bool) (l : list A) :
  (forall a, p a = true -> q a = true) ->
  forallb p l = true -> forallb q l = true.
Proof.
  intros Hpq. rewrite !forallb_forall. intros H a Ha. apply Hpq, H, Ha.
Qed.

Lemma lstrip_plain (l : chars) :
  forallb numeral_char l = true -> lstrip l = l.
Proof.
  destruct l as [| c l]; simpl; [reflexivity |].
  intros H. apply andb_prop in H. destruct H as [Hc _].
  destruct (numeral_char_plain c Hc) as (-> & _). reflexivity.
Qed.

Lemma forallb_rev {A} (p : A -> bool) (l : list A) :
  forallb p l = true -> forallb p (rev l) = true.
Proof.
  rewrite !forallb_forall. intros H a Ha. apply H, in_rev, Ha.
Qed.

Lemma strip_plain (l : chars) :
  forallb numeral_char l = true -> strip l = l.
Proof.
  intros H. unfold strip. rewrite (lstrip_plain l H).
  rewrite (lstrip_plain (rev l)) by (apply forallb_rev, H).
  apply rev_involutive.
Qed.

Lemma underscores_ok_plain (l : chars) :
  forall prev,
    Ascii.eqb prev "_" = false ->
    forallb numeral_char l = true ->
    underscores_ok prev l = true.
Proof.
  induction l as [| c l IH]; simpl; intros prev Hprev H.
  - rewrite Hprev. reflexivity.
  - apply andb_prop in H. destruct H as [Hc Hl].
    destruct (numeral_char_plain c Hc) as (_ & Hu & _).
    rewrite Hu, Hprev. apply IH; assumption.
Qed.

Lemma drop_underscore_plain (l : chars) :
  forallb numeral_char l = true -> drop_char "_" l = l.
Proof.
  intros H. unfold drop_char. apply filter_all.
  revert H. apply forallb_weaken. intros c Hc.
  destruct (numeral_char_plain c Hc) as (_ & -> & _). reflexivity.
Qed.

Lemma take_sign_plain (l : chars) :
  forallb numeral_char l = true -> take_sign l = (false, l).
Proof.
  destruct l as [| c l]; simpl; [reflexivity |].
  intros H. apply andb_prop in H. destruct H as [Hc _].
  destruct (numeral_char_plain c Hc) as (_ & _ & -> & -> & _).
  reflexivity.
Qed.

Lemma span_digits_all (ds : chars) :
  all_digits ds -> span_digits ds = (ds, []).
Proof.
  unfold all_digits. induction ds as [| c ds IH]; simpl; [reflexivity |].
  intros H. apply andb_prop in H. destruct H as [Hc Hds].
  rewrite Hc, IH by exact Hds. reflexivity.
Qed.

Lemma span_digits_stop (ds : chars) (c : ascii) (rest : chars) :
  all_digits ds -> is_digit c = false ->
  span_digits (ds ++ c :: rest) = (ds, c :: rest).
Proof.
  unfold all_digits. intros Hds Hc.
  induction ds as [| d ds IH]; simpl.
  - rewrite Hc. reflexivity.
  - simpl in Hds. apply andb_prop in Hds. destruct Hds as [Hd Hds].
    rewrite Hd, IH by exact Hds. reflexivity.
Qed.

Lemma all_digits_concat (groups : list chars) :
  Forall all_digits groups -> all_digits (List.concat groups).
Proof.
  unfold all_digits. induction 1 as [| g groups Hg _ IH]; simpl.
  - reflexivity.
  - rewrite forallb_app, Hg, IH. reflexivity.
Qed.

Lemma all_digits_app (a b : chars) :
  all_digits a -> all_digits b -> all_digits (a ++ b).
Proof.
  unfold all_digits. intros Ha Hb. rewrite forallb_app, Ha, Hb.
  reflexivity.
Qed.

Lemma drop_dollar_comma_digits (ds : chars) :
  all_digits ds -> drop_dollar_comma ds = ds.
Proof.
  intros H. unfold drop_dollar_comma. apply filter_all.
  apply digits_numeral in H. revert H. apply forallb_weaken.
  intros c Hc.
  destruct (numeral_char_plain c Hc) as (_ & _ & _ & _ & -> & ->).
  reflexivity.
Qed.

Lemma drop_comma_digits (ds : chars) :
  all_digits ds -> drop_char "," ds = ds.
Proof.
  intros H. unfold drop_char. apply filter_all.
  apply digits_numeral in H. revert H. apply forallb_weaken.
  intros c Hc.
  destruct (numeral_char_plain c Hc) as (_ & _ & _ & _ & _ & ->).
  reflexivity.
Qed.

Lemma drop_dollar_comma_app (a b : chars) :
  drop_dollar_comma (a ++ b) = drop_dollar_comma a ++ drop_dollar_comma b.
Proof. apply filter_app. Qed.

Lemma drop_char_app (c : ascii) (a b : chars) :
  drop_char c (a ++ b) = drop_char c a ++ drop_char c b.
Proof. apply filter_app. Qed.

Lemma drop_dollar_comma_groups (groups : list chars) :
  Forall all_digits groups ->
  drop_dollar_comma (join_groups groups) = List.concat groups.
Proof.
  induction 1 as [| g groups Hg Hgs IH]; [reflexivity |].
  destruct groups as [| g' groups].
  - simpl. rewrite app_nil_r. apply drop_dollar_comma_digits, Hg.
  - change (join_groups (g :: g' :: groups))
      with (g ++ ","%char :: join_groups (g' :: groups)).
    rewrite drop_dollar_comma_app.
    change (drop_dollar_comma (","%char :: join_groups (g' :: groups)))
      with (drop_dollar_comma (join_groups (g' :: groups))).
    rewrite IH, drop_dollar_comma_digits by exact Hg. reflexivity.
Qed.

Lemma drop_comma_groups (groups : list chars) :
  Forall all_digits groups ->
  drop_char "," (join_groups groups) = List.concat groups.
Proof.
  induction 1 as [| g groups Hg Hgs IH]; [reflexivity |].
  destruct groups as [| g' groups].
  - simpl. rewrite app_nil_r. apply drop_comma_digits, Hg.
  - change (join_groups (g :: g' :: groups))
      with (g ++ ","%char :: join_groups (g' :: groups)).
    rewrite drop_char_app.
    change (drop_char "," (","%char :: join_groups (g' :: groups)))
      with (drop_char "," (join_groups (g' :: groups))).
    rewrite IH, drop_comma_digits by exact Hg. reflexivity.
Qed.

(** [float] reads digits, a point and digits as that decimal. *)
Lemma py_float_decimal (ip fp : chars) :
  all_digits ip -> all_digits fp -> ip ++ fp <> [] ->
  py_float (string_of_list_ascii (ip ++ "."%char :: fp))
  = Ok (double_of_decimal false (digits_value (ip ++ fp))
          (- Z.of_nat (List.length fp))).
Proof.
  intros Hip Hfp Hne.
  assert (Hplain : forallb numeral_char (ip ++ "."%char :: fp) = true).
  { rewrite forallb_app. simpl.
    rewrite (digits_numeral ip Hip), (digits_numeral fp Hfp).
    reflexivity. }
  unfold py_float. rewrite list_ascii_of_string_of_list_ascii.
  rewrite (strip_plain _ Hplain).
  rewrite (underscores_ok_plain _ "000" eq_refl Hplain).
  rewrite (drop_underscore_plain _ Hplain).
  rewrite (take_sign_plain _ Hplain).
  unfold parse_decimal.
  rewrite (span_digits_stop ip "." fp Hip eq_refl).
  cbn [Ascii.eqb Bool.eqb]. rewrite (span_digits_all fp Hfp).
  destruct (ip ++ fp) eqn:E; [contradiction |].
  reflexivity.
Qed.

(** [int] reads digits as that number. *)
Lemma py_int_digits (ds : chars) :
  all_digits ds -> ds <> [] ->
  Z.of_nat (List.length ds) <= int_max_str_digits ->
  py_int (string_of_list_ascii ds) = Ok (Z.of_N (digits_value ds)).
Proof.
  intros Hds Hne Hmax. apply Z.ltb_ge in Hmax.
  pose proof (digits_numeral ds Hds) as Hplain.
  unfold py_int. rewrite list_ascii_of_string_of_list_ascii.
  rewrite (strip_plain _ Hplain).
  rewrite (underscores_ok_plain _ "000" eq_refl Hplain).
  rewrite (drop_underscore_plain _ Hplain).
  rewrite (take_sign_plain _ Hplain).
  rewrite (span_digits_all ds Hds).
  destruct ds; [contradiction |]. rewrite Hmax. reflexivity.
Qed.

Lemma clean_price_string (groups : list chars) (frac : chars) :
  Forall all_digits groups -> all_digits frac ->
  List.concat groups ++ frac <> [] ->
  clean_price (VStr (price_string groups frac))
  = Ok (double_of_decimal false (digits_value (List.concat groups ++ frac))
          (- Z.of_nat (List.length frac))).
Proof.
  intros Hg Hf Hne. unfold clean_price, re_sub_dollar_comma, price_string.
  cbn [rbind]. rewrite list_ascii_of_string_of_list_ascii.
  replace (drop_dollar_comma ("$"%char :: join_groups groups
                                ++ "."%char :: frac))
    with (List.concat groups ++ "."%char :: frac).
  - apply py_float_decimal; [apply all_digits_concat, Hg | exact Hf
                            | exact Hne].
  - change (drop_dollar_comma ("$"%char :: join_groups groups
                                 ++ "."%char :: frac))
      with (drop_dollar_comma (join_groups groups ++ "."%char :: frac)).
    rewrite drop_dollar_comma_app.
    change (drop_dollar_comma ("."%char :: frac))
      with ("."%char :: drop_dollar_comma frac).
    rewrite (drop_dollar_comma_groups groups Hg).
    rewrite (drop_dollar_comma_digits frac Hf). reflexivity.
Qed.

Lemma clean_volume_string (groups : list chars) :
  Forall all_digits groups -> List.concat groups <> [] ->
  Z.of_nat (List.length (List.concat groups)) <= int_max_str_digits ->
  clean_volume (VStr (volume_string groups))
  = Ok (Z.of_N (digits_value (List.concat groups))).
Proof.
  intros Hg Hne Hmax. unfold clean_volume, str_replace, volume_string.
  cbn [rbind]. rewrite list_ascii_of_string_of_list_ascii.
  rewrite (drop_comma_groups groups Hg).
  apply py_int_digits;
    [apply all_digits_concat, Hg | exact Hne | exact Hmax].
Qed.

Lemma filter_twice {A} (p : A -> bool) (l : list A) :
  filter p (filter p l) = filter p l.
Proof.
  apply filter_all. apply forallb_forall. intros a Ha.
  apply filter_In in Ha. tauto.
Qed.

Lemma cleaned_dict_reads (symbol : string) fc n fo fh fl (d : dict) :
  let d' := cleaned_dict symbol fc n fo fh fl d in
  dict_get "close" d' = Some (VFloat fc)
  /\ dict_get "volume" d' = Some (VInt n)
  /\ dict_get "open" d' = Some (VFloat fo)
  /\ dict_get "high" d' = Some (VFloat fh)
  /\ dict_get "low" d' = Some (VFloat fl).
Proof.
  unfold cleaned_dict. repeat split;
    repeat (rewrite dict_get_set_other by discriminate);
    apply dict_get_set_same.
Qed.

(** What a cleaned row holds under the five numeric keys. *)
Lemma clean_row_reads (symbol : string) (d : dict) (row' : value) :
  clean_row symbol (VDict d) = Ok row' ->
  exists d',
    row' = VDict d'
    /\ (forall k x, In k ["close"; "open"; "high"; "low"] ->
                    dict_get k d = Some x ->
                    exists f, clean_price x = Ok f
                              /\ dict_get k d' = Some (VFloat f))
    /\ (forall x, dict_get "volume" d = Some x ->
                  exists n, clean_volume x = Ok n
                            /\ dict_get "volume" d' = Some (VInt n)).
Proof.
  intros H. rewrite clean_row_dict in H. unfold clean_fields in H.
  apply rbind_ok in H. destruct H as (xc & Hxc & H).
  apply rbind_ok in H. destruct H as (fc & Hfc & H).
  apply rbind_ok in H. destruct H as (xv & Hxv & H).
  apply rbind_ok in H. destruct H as (n & Hn & H).
  apply rbind_ok in H. destruct H as (xo & Hxo & H).
  apply rbind_ok in H. destruct H as (fo & Hfo & H).
  apply rbind_ok in H. destruct H as (xh & Hxh & H).
  apply rbind_ok in H. destruct H as (fh & Hfh & H).
  apply rbind_ok in H. destruct H as (xl & Hxl & H).
  apply rbind_ok in H. destruct H as (fl & Hfl & H).
  injection H as <-.
  destruct (cleaned_dict_reads symbol fc n fo fh fl d)
    as (Rc & Rv & Ro & Rh & Rl).
  exists (cleaned_dict symbol fc n fo fh fl d).
  split; [reflexivity |]. split.
  - intros k x Hk Hx. simpl in Hk, Hxc, Hxo, Hxh, Hxl.
    destruct Hk as [<- | [<- | [<- | [<- | []]]]];
      rewrite Hx in *.
    + injection Hxc as ->. eauto.
    + injection Hxo as ->. eauto.
    + injection Hxh as ->. eauto.
    + injection Hxl as ->. eauto.
  - intros x Hx. simpl in Hxv. rewrite Hx in Hxv.
    injection Hxv as ->. eauto.
Qed.

End NumeralFacts.

Module NumeralClaims.
Import PriceHistoryNASDAQ NumeralFacts.

(** C4.  A price written as a dollar sign, groups of digits with commas
    between them, a point and digits cleans to the double that [float]
    reads from those digits: the decimal they spell rounded to the
    nearest double, infinity when it lies beyond the doubles.  A volume
    written as groups of digits with commas between them, of no more
    digits than [int] takes, cleans to the integer they spell.  So do the
    fields of every row that holds such strings.  Stripping the markers
    of any string gives a string, and stripping that one again changes
    nothing. *)
Theorem C4_markers_stripped_numbers_read (groups : list chars)
  (frac : chars) (vgroups : list chars) :
  Forall all_digits groups ->
  all_digits frac ->
  List.concat groups ++ frac <> [] ->
  Forall all_digits vgroups ->
  List.concat vgroups <> [] ->
  Z.of_nat (List.length (List.concat vgroups)) <= int_max_str_digits ->
  let price :=
    double_of_decimal false (digits_value (List.concat groups ++ frac))
         (- Z.of_nat (List.length frac)) in
  let volume := Z.of_N (digits_value (List.concat vgroups)) in
  clean_price (VStr (price_string groups frac)) = Ok price
  /\ clean_volume (VStr (volume_string vgroups)) = Ok volume
  /\ (forall symbol d row' k,
         clean_row symbol (VDict d) = Ok row' ->
         In k ["close"; "open"; "high"; "low"] ->
         dict_get k d = Some (VStr (price_string groups frac)) ->
         py_getitem row' k = Ok (VFloat price))
  /\ (forall symbol d row',
         clean_row symbol (VDict d) = Ok row' ->
         dict_get "volume" d = Some (VStr (volume_string vgroups)) ->
         py_getitem row' "volume" = Ok (VInt volume))
  /\ (forall s, exists t,
         re_sub_dollar_comma (VStr s) = Ok t
         /\ re_sub_dollar_comma (VStr t) = Ok t)
  /\ (forall s, exists t,
         str_replace "," (VStr s) = Ok t
         /\ str_replace "," (VStr t) = Ok t).
Proof.
  intros Hg Hf Hne Hvg Hvne Hmax price volume.
  pose proof (clean_price_string groups frac Hg Hf Hne) as Hprice.
  pose proof (clean_volume_string vgroups Hvg Hvne Hmax) as Hvolume.
  fold price in Hprice. fold volume in Hvolume.
  split; [exact Hprice |]. split; [exact Hvolume |].
  split; [| split; [| split]].
  - intros symbol d row' k Hrow Hk Hd.
    destruct (clean_row_reads symbol d row' Hrow) as (d' & -> & Hp & _).
    destruct (Hp k _ Hk Hd) as (f & Hc & Hd').
    simpl. rewrite Hd'. congruence.
  - intros symbol d row' Hrow Hd.
    destruct (clean_row_reads symbol d row' Hrow) as (d' & -> & _ & Hv).
    destruct (Hv _ Hd) as (n & Hc & Hd').
    simpl. rewrite Hd'. congruence.
  - intros s. eexists. split; [reflexivity |].
    unfold re_sub_dollar_comma.
    rewrite list_ascii_of_string_of_list_ascii.
    unfold drop_dollar_comma. rewrite filter_twice. reflexivity.
  - intros s. eexists. split; [reflexivity |].
    unfold str_replace. rewrite list_ascii_of_string_of_list_ascii.
    unfold drop_char. rewrite filter_twice. reflexivity.
Qed.

Lemma C4_markers_stripped_witness :
  clean_price (VStr "$1,234.56")
  = Ok (S754_finite false 5429652300748554 (-42))
  /\ clean_volume (VStr "12,345") = Ok 12345
  /\ py_getitem (nth 0 cleaned_A VNone) "close"
     = Ok (VFloat (S754_finite false 5429652300748554 (-42)))
  /\ py_getitem (nth 0 cleaned_A VNone) "volume" = Ok (VInt 12345).
Proof.
  assert (H1 : Forall all_digits [["1"]; ["2"; "3"; "4"]]%char)
    by (repeat constructor).
  assert (H2 : all_digits ["5"; "6"]%char) by reflexivity.
  assert (H3 : List.concat [["1"]; ["2"; "3"; "4"]]%char
               ++ ["5"; "6"]%char <> []) by discriminate.
  assert (H4 : Forall all_digits [["1"; "2"]; ["3"; "4"; "5"]]%char)
    by (repeat constructor).
  assert (H5 : List.concat [["1"; "2"]; ["3"; "4"; "5"]]%char <> [])
    by discriminate.
  assert (H6 : Z.of_nat
                 (List.length
                    (List.concat [["1"; "2"]; ["3"; "4"; "5"]]%char))
               <= int_max_str_digits)
    by (vm_compute; discriminate).
  destruct (C4_markers_stripped_numbers_read _ _ _ H1 H2 H3 H4 H5 H6)
    as (A & B & C & D & _).
  split; [exact A |]. split; [exact B |]. split.
  - apply (C "A"
             [ ("date", VStr "11/01/2024"); ("close", VStr "$1,234.56");
               ("volume", VStr "12,345"); ("open", VStr "$1,230.00");
               ("high", VStr "$1,240.10"); ("low", VStr "$1,229.95") ]
             (nth 0 cleaned_A VNone) "close").
    + reflexivity.
    + left. reflexivity.
    + reflexivity.
  - apply (D "A"
             [ ("date", VStr "11/01/2024"); ("close", VStr "$1,234.56");
               ("volume", VStr "12,345"); ("open", VStr "$1,230.00");
               ("high", VStr "$1,240.10"); ("low", VStr "$1,229.95") ]
             (nth 0 cleaned_A VNone)).
    + reflexivity.
    + reflexivity.
Defined.

(** The older draft strips the dollar sign only, so a price with a
    comma does not read there. *)
Lemma PriceHistory_keeps_the_commas :
  PriceHistory.clean_field (VStr "$1,234.56") = Raise ValueError.
Proof. reflexivity. Qed.

End NumeralClaims.


(* ================================================================= *)
(** ** The URLs *)

Module UrlFacts.

Lemma string_length_append (a b : string) :
  String.length (a ++ b) = (String.length a + String.length b)%nat.
Proof.
  induction a as [| c a IH]; simpl; [reflexivity |].
  rewrite IH. reflexivity.
Qed.

Lemma append_cancel_l (t a b : string) :
  (t ++ a)%string = (t ++ b)%string -> a = b.
Proof.
  induction t as [| c t IH]; simpl; intros H; [exact H |].
  injection H as H. apply IH, H.
Qed.

Lemma append_cancel_r (t : string) :
  forall a b : string, (a ++ t)%string = (b ++ t)%string -> a = b.
Proof.
  induction a as [| c a IH]; intros b H.
  - apply (f_equal String.length) in H.
    rewrite !string_length_append in H. simpl in H.
    destruct b; [reflexivity | simpl in H; lia].
  - destruct b as [| c' b].
    + apply (f_equal String.length) in H.
      rewrite !string_length_append in H. simpl in H. lia.
    + simpl in H. injection H as -> H. f_equal. apply IH, H.
Qed.

Lemma concat3 (a b c : string) :
  String.concat "/" [a; b; c] = (a ++ "/" ++ b ++ "/" ++ c)%string.
Proof. reflexivity. Qed.

(** Two symbols that differ get URLs that differ from
    [PriceHistoryNASDAQ._build_url]. *)
Theorem nasdaq_urls_differ (s : PriceHistoryNASDAQ.self) (a b : string) :
  a <> b ->
  PriceHistoryNASDAQ._build_url s a <> PriceHistoryNASDAQ._build_url s b.
Proof.
  intros Hab H. apply Hab. unfold PriceHistoryNASDAQ._build_url in H.
  rewrite !concat3 in H.
  apply append_cancel_l in H. apply append_cancel_l in H.
  apply append_cancel_r in H. exact H.
Qed.

Lemma nasdaq_urls_differ_witness :
  PriceHistoryNASDAQ._build_url (PriceHistoryNASDAQ.new ["A"; "B"] "ua") "A"
  <> PriceHistoryNASDAQ._build_url (PriceHistoryNASDAQ.new ["A"; "B"] "ua")
       "B".
Proof.
  apply (nasdaq_urls_differ (PriceHistoryNASDAQ.new ["A"; "B"] "ua")
           "A" "B").
  discriminate.
Defined.

(** Two categories that differ get URLs that differ from
    [DolarPrices._build_url]; the URL is the base, which ends in a slash,
    a slash, the service path, a slash and the category. *)
Theorem dolar_urls_differ (a b : string) :
  a <> b ->
  DolarPrices._build_url DolarPrices.__init__ a
  <> DolarPrices._build_url DolarPrices.__init__ b
  /\ DolarPrices._build_url DolarPrices.__init__ a
     = ("https://api.argentinadatos.com/v1//cotizaciones/dolares/"
        ++ a)%string.
Proof.
  intros Hab. split; [| reflexivity].
  intros H. apply Hab. unfold DolarPrices._build_url in H.
  rewrite !concat3 in H.
  do 4 apply append_cancel_l in H. exact H.
Qed.

Lemma dolar_urls_differ_witness :
  DolarPrices._build_url DolarPrices.__init__ "oficial"
  <> DolarPrices._build_url DolarPrices.__init__ "blue"
  /\ DolarPrices._build_url DolarPrices.__init__ "oficial" = url_oficial.
Proof.
  apply (dolar_urls_differ "oficial" "blue"). discriminate.
Defined.

End UrlFacts.

(* ================================================================= *)
(** ** The window of six months *)

Module WindowFacts.

Lemma days_before_year_next (y : Z) :
  _days_before_year (y + 1)
  = _days_before_year y + 365 + (if _is_leap y then 1 else 0).
Proof.
  unfold _days_before_year, _is_leap. cbn zeta.
  replace (y + 1 - 1) with y by lia.
  destruct (Z.eqb_spec (y mod 4) 0), (Z.eqb_spec (y mod 100) 0),
    (Z.eqb_spec (y mod 400) 0); cbn [andb orb negb];
    Z.div_mod_to_equations; lia.
Qed.

Lemma month_cases (m : Z) :
  1 <= m <= 12 ->
  m = 1 \/ m = 2 \/ m = 3 \/ m = 4 \/ m = 5 \/ m = 6 \/
  m = 7 \/ m = 8 \/ m = 9 \/ m = 10 \/ m = 11 \/ m = 12.
Proof. lia. Qed.

(** Six months before a date of the calendar is a date of the calendar,
    181 to 184 days earlier. *)
Lemma six_months_span (d f : date) :
  valid_date d -> minus_six_months d = Ok f ->
  181 <= days_between d f <= 184 /\ valid_date f.
Proof.
  destruct d as [y m dd].
  unfold valid_date, minus_six_months.
  cbn [year month day]. intros [Hm Hd] H.
  pose proof (days_before_year_next (y - 1)) as Hy.
  replace (y - 1 + 1) with y in Hy by lia.
  destruct (month_cases m Hm)
    as [-> | [-> | [-> | [-> | [-> | [-> | [-> | [-> | [-> | [-> | [-> | ->
       ]]]]]]]]]]];
    cbn -[_is_leap Z.min _days_in_month] in H;
    try (destruct (y - 1 <? 1); [discriminate H |]);
    try (destruct (y <? 1); [discriminate H |]);
    injection H as <-;
    unfold days_between, toordinal, _days_before_month, _days_in_month in *;
    cbn [year month day] in *;
    set (A := _days_before_year y) in *;
    set (B := _days_before_year (y - 1)) in *;
    clearbody A B;
    cbn -[_is_leap Z.min] in *;
    destruct (_is_leap y); destruct (_is_leap (y - 1));
    cbv -[Z.min Z.le Z.add Z.sub] in *; lia.
Qed.

End WindowFacts.

(* ================================================================= *)
(** ** The requests [PriceHistoryNASDAQ] sends *)

Module TrafficFacts.
Import PriceHistoryNASDAQ LoopFacts.

Lemma init_sent (E : Env) (symbols : list string) (user_agent : string)
  (from_date : date) :
  minus_six_months (today E) = Ok from_date ->
  sent (__init__ E symbols user_agent)
  = snd (for_symbols E (new symbols user_agent) from_date (today E)
           symbols [] []).
Proof.
  intros Hf. unfold sent, __init__, _build_data_frame.
  rewrite Hf. unfold mbind, lift. cbn [fst snd _symbols new].
  destruct (for_symbols E _ from_date (today E) symbols [] [])
    as [[all_data | e] log]; reflexivity.
Qed.

Lemma init_sent_no_window (E : Env) (symbols : list string)
  (user_agent : string) (e : exn) :
  minus_six_months (today E) = Raise e ->
  sent (__init__ E symbols user_agent) = [].
Proof.
  intros Hf. unfold sent, __init__, _build_data_frame.
  rewrite Hf. reflexivity.
Qed.

Lemma firstn_min {A} (k : nat) (l : list A) :
  firstn (Nat.min k (List.length l)) l = firstn k l.
Proof.
  destruct (Nat.le_ge_cases k (List.length l)) as [H | H].
  - rewrite Nat.min_l by exact H. reflexivity.
  - rewrite Nat.min_r by exact H.
    rewrite !firstn_all2 by lia. reflexivity.
Qed.

Lemma for_symbols_prefix (E : Env) (s : self) (from_date to_date : date)
  (symbols : list string) :
  forall (all_data : list value) (log : list request),
  exists k,
    (k <= List.length symbols)%nat
    /\ snd (for_symbols E s from_date to_date symbols all_data log)
       = log ++ map (fun symbol => grab_request s symbol from_date to_date)
                  (firstn k symbols).
Proof.
  induction symbols as [| symbol rest IH]; intros all_data log.
  - exists 0%nat. simpl. rewrite app_nil_r. split; [lia | reflexivity].
  - rewrite for_symbols_step.
    destruct (grab_outcome E s _ symbol from_date to_date) as [v | e].
    + destruct v;
        try (exists 1%nat; split; [simpl; lia | reflexivity]).
      destruct (IH (l ++ all_data)
                  (log ++ [grab_request s symbol from_date to_date]))
        as (k & Hk & Hlog).
      exists (S k). split; [simpl; lia |].
      rewrite Hlog, <- app_assoc. reflexivity.
    + exists 1%nat. split; [simpl; lia | reflexivity].
Qed.

(** The constructor sends at most one request per symbol: the requests
    of the first symbols of the list, in the order of the list, each for
    the window from six months before today to today. *)
Theorem requests_follow_the_symbols (E : Env) (symbols : list string)
  (user_agent : string) (from_date : date) :
  minus_six_months (today E) = Ok from_date ->
  exists k,
    (k <= List.length symbols)%nat
    /\ sent (__init__ E symbols user_agent)
       = map (fun symbol =>
                grab_request (new symbols user_agent) symbol from_date
                  (today E))
             (firstn k symbols).
Proof.
  intros Hf. rewrite (init_sent E symbols user_agent from_date Hf).
  destruct (for_symbols_prefix E (new symbols user_agent) from_date
              (today E) symbols [] []) as (k & Hk & Hlog).
  exists k. split; [exact Hk | exact Hlog].
Qed.

Lemma requests_follow_the_symbols_witness :
  exists k,
    (k <= 2)%nat
    /\ sent (__init__ env_B_only ["A"; "B"] "ua")
       = map (fun symbol =>
                grab_request (new ["A"; "B"] "ua") symbol (mkdate 2024 5 4)
                  (mkdate 2024 11 4))
             (firstn k ["A"; "B"]).
Proof.
  apply (requests_follow_the_symbols env_B_only ["A"; "B"] "ua"
           (mkdate 2024 5 4)).
  reflexivity.
Defined.

(** When every symbol is answered with rows that clean, exactly one
    request per symbol has been sent, in the order of the symbols. *)
Theorem one_request_per_symbol (E : Env) (symbols : list string)
  (user_agent : string) (from_date : date) (batches : list (list value)) :
  minus_six_months (today E) = Ok from_date ->
  List.length batches = List.length symbols ->
  (forall i symbol batch,
      nth_error symbols i = Some symbol ->
      nth_error batches i = Some batch ->
      fetched E (new symbols user_agent) from_date (today E) i
              symbol batch) ->
  sent (__init__ E symbols user_agent)
  = map (fun symbol =>
           grab_request (new symbols user_agent) symbol from_date (today E))
        symbols.
Proof.
  intros Hf Hlen Hall.
  rewrite (init_sent E symbols user_agent from_date Hf).
  rewrite (for_symbols_fetched E (new symbols user_agent) from_date
             (today E) symbols batches [] [] Hlen Hall).
  reflexivity.
Qed.

Lemma one_request_per_symbol_witness :
  map req_url (sent (__init__ env_AB ["A"; "B"] "ua")) = [url_A; url_B].
Proof.
  assert (H : forall i symbol batch,
             nth_error ["A"; "B"] i = Some symbol ->
             nth_error [cleaned_A; cleaned_B] i = Some batch ->
             fetched env_AB (new ["A"; "B"] "ua") (mkdate 2024 5 4)
                     (today env_AB) i symbol batch).
  { intros i symbol batch Hs Hb.
    destruct i as [| [| i]]; simpl in Hs, Hb.
    - injection Hs as <-. injection Hb as <-.
      exists (ok_response (quote_body rows_A)), rows_A.
      repeat split; reflexivity.
    - injection Hs as <-. injection Hb as <-.
      exists (ok_response (quote_body rows_B)), rows_B.
      repeat split; reflexivity.
    - destruct i; discriminate Hs. }
  rewrite (one_request_per_symbol env_AB ["A"; "B"] "ua" (mkdate 2024 5 4)
             [cleaned_A; cleaned_B] eq_refl eq_refl H).
  reflexivity.
Defined.

Lemma for_symbols_first_failure (E : Env) (s : self)
  (from_date to_date : date) (pre : list string) :
  forall (batches : list (list value)) (symbol : string)
         (post : list string) (all_data : list value)
         (log : list request),
    List.length batches = List.length pre ->
    (forall i sym batch,
        nth_error pre i = Some sym ->
        nth_error batches i = Some batch ->
        fetched E s from_date to_date (List.length log + i) sym batch) ->
    is_batch (grab_outcome E s (List.length log + List.length pre) symbol
                from_date to_date) = false ->
    for_symbols E s from_date to_date (pre ++ symbol :: post) all_data log
    = (Raise (failure_of
                (grab_outcome E s (List.length log + List.length pre)
                   symbol from_date to_date)),
       log ++ map (fun symbol => grab_request s symbol from_date to_date)
                (pre ++ [symbol])).
Proof.
  induction pre as [| sym pre IH];
    intros batches symbol post all_data log Hlen Hall Hbad.
  - cbn [app]. rewrite for_symbols_step.
    simpl List.length in *. rewrite Nat.add_0_r in *.
    destruct (grab_outcome E s _ symbol from_date to_date) as [v | e];
      [| reflexivity].
    destruct v; try reflexivity. discriminate Hbad.
  - destruct batches as [| batch batches]; [discriminate Hlen |].
    cbn [app]. rewrite for_symbols_step.
    pose proof (Hall 0%nat sym batch eq_refl eq_refl) as H0.
    rewrite Nat.add_0_r in H0. rewrite (fetched_outcome _ _ _ _ _ _ _ H0).
    rewrite (IH batches symbol post).
    + rewrite length_app. simpl List.length.
      replace (List.length log + 1 + List.length pre)%nat
        with (List.length log + S (List.length pre))%nat by lia.
      simpl map. rewrite <- app_assoc. reflexivity.
    + simpl in Hlen. lia.
    + intros i sy b Hs Hb. rewrite length_app. simpl.
      replace (List.length log + 1 + i)%nat
        with (List.length log + S i)%nat by lia.
      apply Hall; assumption.
    + rewrite length_app. simpl List.length.
      replace (List.length log + 1 + List.length pre)%nat
        with (List.length log + S (List.length pre))%nat by lia.
      exact Hbad.
Qed.

(** The first call of [_grab_prices] that does not return a list ends the
    construction: the constructor raises the exception of that call, or
    [TypeError] when the call returned something that is not a list, and
    no request is sent for the symbols after it. *)
Theorem first_failure_ends_the_fetch (E : Env) (pre post : list string)
  (symbol user_agent : string) (from_date : date)
  (batches : list (list value)) :
  minus_six_months (today E) = Ok from_date ->
  List.length batches = List.length pre ->
  (forall i sym batch,
      nth_error pre i = Some sym ->
      nth_error batches i = Some batch ->
      fetched E (new (pre ++ symbol :: post) user_agent) from_date
              (today E) i sym batch) ->
  is_batch (grab_outcome E (new (pre ++ symbol :: post) user_agent)
              (List.length pre) symbol from_date (today E)) = false ->
  run (__init__ E (pre ++ symbol :: post) user_agent)
  = Raise (failure_of
             (grab_outcome E (new (pre ++ symbol :: post) user_agent)
                (List.length pre) symbol from_date (today E)))
  /\ sent (__init__ E (pre ++ symbol :: post) user_agent)
     = map (fun sym =>
              grab_request (new (pre ++ symbol :: post) user_agent) sym
                from_date (today E))
           (pre ++ [symbol]).
Proof.
  intros Hf Hlen Hall Hbad.
  pose proof (for_symbols_first_failure E
                (new (pre ++ symbol :: post) user_agent) from_date
                (today E) pre batches symbol post [] [] Hlen Hall Hbad)
    as Hloop.
  simpl List.length in Hloop. simpl Nat.add in Hloop.
  split.
  - rewrite (init_run E _ user_agent from_date Hf). unfold run.
    rewrite Hloop. reflexivity.
  - rewrite (init_sent E _ user_agent from_date Hf), Hloop. reflexivity.
Qed.

Lemma first_failure_witness :
  run (__init__ env_B_only ["B"; "A"; "B"] "ua") = Raise TypeError
  /\ map req_url (sent (__init__ env_B_only ["B"; "A"; "B"] "ua"))
     = [url_B; url_A].
Proof.
  assert (H : forall i sym batch,
             nth_error ["B"] i = Some sym ->
             nth_error [cleaned_B] i = Some batch ->
             fetched env_B_only (new (["B"] ++ "A" :: ["B"]) "ua")
                     (mkdate 2024 5 4) (today env_B_only) i sym batch).
  { intros i sym batch Hs Hb. destruct i as [| i]; simpl in Hs, Hb.
    - injection Hs as <-. injection Hb as <-.
      exists (ok_response (quote_body rows_B)), rows_B.
      repeat split; reflexivity.
    - destruct i; discriminate Hs. }
  destruct (first_failure_ends_the_fetch env_B_only ["B"] ["B"] "A" "ua"
              (mkdate 2024 5 4) [cleaned_B] eq_refl eq_refl H eq_refl)
    as (A & B).
  split.
  - exact A.
  - change (["B"; "A"; "B"]) with (["B"] ++ "A" :: ["B"]).
    rewrite B. reflexivity.
Defined.

(** An [ok] answer whose JSON object has [null] under [data], or no
    [data] at all, ends the construction with [TypeError], or with
    [KeyError] for [data]. *)
Theorem body_without_data_raises (E : Env) (pre post : list string)
  (symbol user_agent : string) (from_date : date)
  (batches : list (list value)) (r : response) (body : dict) :
  minus_six_months (today E) = Ok from_date ->
  List.length batches = List.length pre ->
  (forall i sym batch,
      nth_error pre i = Some sym ->
      nth_error batches i = Some batch ->
      fetched E (new (pre ++ symbol :: post) user_agent) from_date
              (today E) i sym batch) ->
  upstream E (List.length pre)
    (grab_request (new (pre ++ symbol :: post) user_agent) symbol
       from_date (today E))
    = Ok r ->
  resp_ok r = true ->
  resp_json r = Ok (VDict body) ->
  dict_get "data" body = Some VNone \/ dict_get "data" body = None ->
  run (__init__ E (pre ++ symbol :: post) user_agent)
  = Raise (match dict_get "data" body with
           | None => KeyError "data"
           | Some _ => TypeError
           end).
Proof.
  intros Hf Hlen Hall Hr Hok Hjson Hdata.
  assert (Hout :
    grab_outcome E (new (pre ++ symbol :: post) user_agent)
      (List.length pre) symbol from_date (today E)
    = Raise (match dict_get "data" body with
             | None => KeyError "data"
             | Some _ => TypeError
             end)).
  { unfold grab_outcome, parse_prices, rows_of. rewrite Hr. cbn [rbind].
    rewrite Hok, Hjson. cbn [rbind py_getitem].
    destruct Hdata as [-> | ->]; reflexivity. }
  rewrite (init_run E _ user_agent from_date Hf). unfold run.
  rewrite (for_symbols_first_failure E
             (new (pre ++ symbol :: post) user_agent) from_date (today E)
             pre batches symbol post [] [] Hlen Hall)
    by (simpl; rewrite Hout; reflexivity).
  simpl List.length. simpl Nat.add. rewrite Hout. reflexivity.
Qed.

Lemma body_without_data_witness :
  run (__init__ env_null_data ["A"; "B"] "ua") = Raise TypeError.
Proof.
  apply (body_without_data_raises env_null_data [] ["B"] "A" "ua"
           (mkdate 2024 5 4) []
           (ok_response
              (VDict [ ("data", VNone); ("message", VStr "no data") ]))
           [ ("data", VNone); ("message", VStr "no data") ]).
  - reflexivity.
  - reflexivity.
  - intros i sym batch Hs. destruct i; discriminate Hs.
  - reflexivity.
  - reflexivity.
  - reflexivity.
  - left. reflexivity.
Defined.

(** Every request the constructor sends carries the user agent it was
    given as its only header, asks for certificate verification, and
    asks for the asset class [stocks]. *)
Theorem requests_carry_the_user_agent (E : Env) (symbols : list string)
  (user_agent : string) :
  Forall (fun r =>
            req_headers r = [("user-agent", user_agent)]
            /\ req_verify r = true
            /\ dict_get "assetclass" (req_params r) = Some (VStr "stocks"))
         (sent (__init__ E symbols user_agent)).
Proof.
  destruct (minus_six_months (today E)) as [f | e] eqn:Hf.
  - rewrite (init_sent E symbols user_agent f Hf).
    destruct (for_symbols_prefix E (new symbols user_agent) f (today E)
                symbols [] []) as (k & _ & ->).
    apply Forall_forall. intros r Hr.
    apply in_map_iff in Hr. destruct Hr as (symbol & <- & _).
    repeat split.
  - rewrite (init_sent_no_window E symbols user_agent e Hf). constructor.
Qed.

(** When today is a date of the calendar after year 1, every request the
    constructor sends has a [limit] between 181 and 184, the days from
    six months before today, itself a date of the calendar, to today. *)
Theorem constructor_limit_range (E : Env) (symbols : list string)
  (user_agent : string) :
  valid_date (today E) ->
  2 <= year (today E) ->
  exists from_date,
    minus_six_months (today E) = Ok from_date
    /\ valid_date from_date
    /\ 181 <= days_between (today E) from_date <= 184
    /\ Forall (fun r =>
                 dict_get "limit" (req_params r)
                 = Some (VInt (days_between (today E) from_date))
                 /\ dict_get "fromdate" (req_params r)
                    = Some (VStr (isoformat from_date)))
              (sent (__init__ E symbols user_agent)).
Proof.
  intros Hv Hy. destruct (minus_six_months_ok _ Hy) as (f & Hf).
  destruct (WindowFacts.six_months_span _ _ Hv Hf) as (Hspan & Hvf).
  exists f. split; [exact Hf |]. split; [exact Hvf |].
  split; [exact Hspan |].
  rewrite (init_sent E symbols user_agent f Hf).
  destruct (for_symbols_prefix E (new symbols user_agent) f (today E)
              symbols [] []) as (k & _ & ->).
  apply Forall_forall. intros r Hr.
  apply in_map_iff in Hr. destruct Hr as (symbol & <- & _).
  split; reflexivity.
Qed.

Lemma constructor_limit_range_witness :
  exists from_date,
    minus_six_months (today env_AB) = Ok from_date
    /\ valid_date from_date
    /\ 181 <= days_between (today env_AB) from_date <= 184
    /\ Forall (fun r =>
                 dict_get "limit" (req_params r)
                 = Some (VInt (days_between (today env_AB) from_date))
                 /\ dict_get "fromdate" (req_params r)
                    = Some (VStr (isoformat from_date)))
              (sent (__init__ env_AB ["A"; "B"] "ua")).
Proof.
  apply (constructor_limit_range env_AB ["A"; "B"] "ua").
  - unfold valid_date. vm_compute. repeat split; discriminate.
  - vm_compute. discriminate.
Defined.

(** Fetching a list of symbols followed by another is fetching the first
    list and then the second, from the rows gathered and the requests
    sent so far. *)
Theorem for_symbols_app (E : Env) (s : self) (from_date to_date : date)
  (first second : list string) (all_data : list value)
  (log : list request) :
  for_symbols E s from_date to_date (first ++ second) all_data log
  = mbind (for_symbols E s from_date to_date first all_data)
          (fun all_data =>
             for_symbols E s from_date to_date second all_data)
          log.
Proof.
  revert all_data log.
  induction first as [| symbol rest IH]; intros all_data log.
  - reflexivity.
  - cbn [app]. unfold mbind at 1. rewrite !for_symbols_step.
    destruct (grab_outcome E s _ symbol from_date to_date) as [v | e];
      [| reflexivity].
    destruct v; try reflexivity.
    rewrite IH. reflexivity.
Qed.

End TrafficFacts.

(* ================================================================= *)
(** ** The rows [PriceHistoryNASDAQ] cleans *)

Module RowFacts.
Import PriceHistoryNASDAQ CleanFacts NumeralFacts TableFacts.

Lemma getitem_raise (d : dict) (k : string) (e : exn) :
  py_getitem (VDict d) k = Raise e -> e = KeyError k /\ dict_get k d = None.
Proof.
  simpl. destruct (dict_get k d); intros H; [discriminate H |].
  injection H as <-. split; reflexivity.
Qed.

Lemma py_float_raise (s : string) (e : exn) :
  py_float s = Raise e -> e = ValueError.
Proof.
  unfold py_float.
  destruct (underscores_ok _ _); [| intros H; congruence].
  destruct (take_sign _) as [neg body].
  destruct (parse_decimal neg body); [discriminate |].
  destruct (parse_inf_nan neg body); [discriminate |].
  intros H. congruence.
Qed.

Lemma py_int_raise (s : string) (e : exn) :
  py_int s = Raise e -> e = ValueError.
Proof.
  unfold py_int.
  destruct (underscores_ok _ _); [| intros H; congruence].
  destruct (take_sign _) as [neg body].
  destruct (span_digits body) as [[| d ds] [| c rest]];
    try (intros H; congruence).
  destruct (int_max_str_digits <? _); intros H; congruence.
Qed.

Lemma clean_price_raise (x : value) (e : exn) :
  clean_price x = Raise e -> e = TypeError \/ e = ValueError.
Proof.
  unfold clean_price. destruct x; simpl; intros H;
    try (left; congruence).
  right. apply py_float_raise in H. exact H.
Qed.

Lemma clean_volume_raise (x : value) (e : exn) :
  clean_volume x = Raise e -> e = AttributeError \/ e = ValueError.
Proof.
  unfold clean_volume. destruct x; simpl; intros H;
    try (left; congruence).
  right. apply py_int_raise in H. exact H.
Qed.

(** The cleaning of a row raises nothing but [TypeError], [ValueError],
    [AttributeError], and [KeyError] for one of the five numeric keys, the
    last only when the row is a dictionary without that key. *)
Theorem clean_row_exceptions (symbol : string) (row : value) (e : exn) :
  clean_row symbol row = Raise e ->
  e = TypeError \/ e = ValueError \/ e = AttributeError
  \/ exists k d,
       In k ["close"; "volume"; "open"; "high"; "low"]
       /\ e = KeyError k /\ row = VDict d /\ dict_get k d = None.
Proof.
  intros H.
  destruct row as [| | | | | | | | d |];
    try (rewrite clean_row_not_dict in H by (intros; discriminate);
         left; congruence).
  rewrite clean_row_dict in H. unfold clean_fields in H.
  repeat match type of H with
    | rbind (py_getitem (VDict d) ?k) _ = Raise _ =>
        let Hg := fresh "Hg" in
        destruct (py_getitem (VDict d) k) eqn:Hg; cbn [rbind] in H;
        [| injection H as <-; apply getitem_raise in Hg;
           destruct Hg as [-> Hg];
           right; right; right; exists k, d; simpl; tauto]
    | rbind (clean_price ?x) _ = Raise _ =>
        let Hc := fresh "Hc" in
        destruct (clean_price x) eqn:Hc; cbn [rbind] in H;
        [| injection H as <-; apply clean_price_raise in Hc; tauto]
    | rbind (clean_volume ?x) _ = Raise _ =>
        let Hc := fresh "Hc" in
        destruct (clean_volume x) eqn:Hc; cbn [rbind] in H;
        [| injection H as <-; apply clean_volume_raise in Hc; tauto]
    end.
  discriminate H.
Qed.

Lemma clean_row_exceptions_witness :
  KeyError "open" = TypeError \/ KeyError "open" = ValueError
  \/ KeyError "open" = AttributeError
  \/ exists k d,
       In k ["close"; "volume"; "open"; "high"; "low"]
       /\ KeyError "open" = KeyError k
       /\ VDict [ ("date", VStr "11/01/2024"); ("close", VStr "$1.00");
                  ("volume", VStr "10") ] = VDict d
       /\ dict_get k d = None.
Proof.
  apply (clean_row_exceptions "A"
           (VDict [ ("date", VStr "11/01/2024"); ("close", VStr "$1.00");
                    ("volume", VStr "10") ])
           (KeyError "open")).
  reflexivity.
Defined.

(** A row the loop has cleaned does not clean a second time: its [close]
    is a float by then, and [re.sub] raises [TypeError] on it. *)
Theorem cleaned_row_does_not_clean_again (symbol symbol' : string)
  (row row' : value) :
  clean_row symbol row = Ok row' ->
  clean_row symbol' row' = Raise TypeError.
Proof.
  intros H.
  destruct (clean_row_ok symbol row row' H)
    as (d & fc & n & fo & fh & fl & -> & ->).
  rewrite clean_row_dict. unfold clean_fields.
  destruct (cleaned_dict_reads symbol fc n fo fh fl d) as (Rc & _).
  cbn [py_getitem]. rewrite Rc. reflexivity.
Qed.

Lemma cleaned_row_does_not_clean_again_witness :
  clean_row "A" (nth 0 cleaned_A VNone) = Raise TypeError.
Proof.
  apply (cleaned_row_does_not_clean_again "A" "A" (nth 0 rows_A VNone)).
  reflexivity.
Defined.

Lemma dict_set_keys (k : string) (v : value) (d : dict) :
  map fst (dict_set k v d) = add_key (map fst d) k.
Proof.
  unfold add_key. induction d as [| [k' v'] d IH]; simpl; [reflexivity |].
  destruct (String.eqb k k') eqn:Ek; simpl.
  - apply String.eqb_eq in Ek. subst k'. reflexivity.
  - rewrite IH. destruct (existsb (String.eqb k) (map fst d)); reflexivity.
Qed.


Lemma getitem_ok_key (d : dict) (k : string) (x : value) :
  py_getitem (VDict d) k = Ok x -> In k (map fst d).
Proof.
  simpl. destruct (dict_get k d) eqn:E; intros H; [| discriminate H].
  apply dict_get_in_keys. congruence.
Qed.

(** A cleaned row has the keys of the row it came from, in their order,
    and [symbol] after them when it was not among them. *)
Theorem clean_row_keys (symbol : string) (d d' : dict) :
  clean_row symbol (VDict d) = Ok (VDict d') ->
  map fst d' = add_key (map fst d) "symbol".
Proof.
  intros H. rewrite clean_row_dict in H. unfold clean_fields in H.
  apply rbind_ok in H. destruct H as (xc & Hxc & H).
  apply rbind_ok in H. destruct H as (fc & _ & H).
  apply rbind_ok in H. destruct H as (xv & Hxv & H).
  apply rbind_ok in H. destruct H as (n & _ & H).
  apply rbind_ok in H. destruct H as (xo & Hxo & H).
  apply rbind_ok in H. destruct H as (fo & _ & H).
  apply rbind_ok in H. destruct H as (xh & Hxh & H).
  apply rbind_ok in H. destruct H as (fh & _ & H).
  apply rbind_ok in H. destruct H as (xl & Hxl & H).
  apply rbind_ok in H. destruct H as (fl & _ & H).
  injection H as <-.
  apply getitem_ok_key in Hxc, Hxv, Hxo, Hxh, Hxl.
  unfold cleaned_dict. rewrite !dict_set_keys.
  assert (Hin : forall k, In k (map fst d) ->
                          In k (add_key (map fst d) "symbol")).
  { intros k Hk. apply add_key_in. left. exact Hk. }
  rewrite (add_key_present _ "close") by (apply Hin, Hxc).
  rewrite (add_key_present _ "volume") by (apply Hin, Hxv).
  rewrite (add_key_present _ "open") by (apply Hin, Hxo).
  rewrite (add_key_present _ "high") by (apply Hin, Hxh).
  rewrite (add_key_present _ "low") by (apply Hin, Hxl).
  reflexivity.
Qed.

Lemma clean_row_keys_witness :
  map fst
    (cleaned_dict "A" (double_of_decimal false 123456 (-2)) 12345
       (double_of_decimal false 123000 (-2))
       (double_of_decimal false 124010 (-2))
       (double_of_decimal false 122995 (-2))
       [ ("date", VStr "11/01/2024"); ("close", VStr "$1,234.56");
         ("volume", VStr "12,345"); ("open", VStr "$1,230.00");
         ("high", VStr "$1,240.10"); ("low", VStr "$1,229.95") ])
  = ["date"; "close"; "volume"; "open"; "high"; "low"; "symbol"].
Proof.
  exact (clean_row_keys "A"
           [ ("date", VStr "11/01/2024"); ("close", VStr "$1,234.56");
             ("volume", VStr "12,345"); ("open", VStr "$1,230.00");
             ("high", VStr "$1,240.10"); ("low", VStr "$1,229.95") ]
           (cleaned_dict "A" (double_of_decimal false 123456 (-2)) 12345
              (double_of_decimal false 123000 (-2))
              (double_of_decimal false 124010 (-2))
              (double_of_decimal false 122995 (-2))
              [ ("date", VStr "11/01/2024"); ("close", VStr "$1,234.56");
                ("volume", VStr "12,345"); ("open", VStr "$1,230.00");
                ("high", VStr "$1,240.10"); ("low", VStr "$1,229.95") ])
           eq_refl).
Defined.

Lemma cleaned_dict_typed (symbol : string) fc n fo fh fl (d : dict) :
  typed_row symbol (VDict (cleaned_dict symbol fc n fo fh fl d)).
Proof.
  destruct (cleaned_dict_reads symbol fc n fo fh fl d)
    as (Rc & Rv & Ro & Rh & Rl).
  exists (cleaned_dict symbol fc n fo fh fl d).
  split; [reflexivity |]. split; [apply cleaned_dict_symbol |]. split.
  - intros k Hk. simpl in Hk.
    destruct Hk as [<- | [<- | [<- | [<- | []]]]]; eauto.
  - eauto.
Qed.

(** When [_grab_prices] gets a list out of an answer, the answer was [ok]
    and held a list of rows, the list returned has as many rows, and each
    is a dictionary with the symbol, float prices and an integer volume. *)
Theorem batch_is_typed (symbol : string) (r : response)
  (batch : list value) :
  parse_prices symbol r = Ok (VList batch) ->
  resp_ok r = true
  /\ exists raw,
       rows_of r = Ok (VList raw)
       /\ List.length batch = List.length raw
       /\ Forall (typed_row symbol) batch.
Proof.
  unfold parse_prices. destruct (resp_ok r); [| discriminate].
  intros H. split; [reflexivity |].
  apply rbind_ok in H. destruct H as (hd & Hrows & H).
  unfold clean_rows in H.
  apply rbind_ok in H. destruct H as (items & Hiter & H).
  apply rbind_ok in H. destruct H as (items' & Hclean & H).
  destruct hd; simpl in Hiter, H; try discriminate.
  injection Hiter as <-. injection H as <-.
  exists l. split; [exact Hrows |].
  apply mapM_Forall2 in Hclean. split.
  - symmetry. apply (Forall2_length Hclean).
  - clear Hrows. induction Hclean as [| a b l l' Hab _ IH];
      constructor; [| exact IH].
    destruct (clean_row_ok symbol a b Hab)
      as (d & fc & n & fo & fh & fl & _ & ->).
    apply cleaned_dict_typed.
Qed.

Lemma batch_is_typed_witness :
  resp_ok (ok_response (quote_body rows_A)) = true
  /\ exists raw,
       rows_of (ok_response (quote_body rows_A)) = Ok (VList raw)
       /\ List.length cleaned_A = List.length raw
       /\ Forall (typed_row "A") cleaned_A.
Proof.
  apply (batch_is_typed "A" (ok_response (quote_body rows_A)) cleaned_A).
  reflexivity.
Defined.



End RowFacts.

(* ================================================================= *)
(** ** The shape of the table of [PriceHistoryNASDAQ] *)

Module TableShape.
Import PriceHistoryNASDAQ TableFacts RowFacts.

Lemma add_key_nodup (keys : list string) (k : string) :
  NoDup keys -> NoDup (add_key keys k).
Proof.
  intros H. unfold add_key.
  destruct (existsb (String.eqb k) keys) eqn:Ex; [exact H |].
  apply NoDup_app; [exact H | repeat constructor; simpl; tauto |].
  intros x Hx [<- | []].
  assert (existsb (String.eqb k) keys = true); [| congruence].
  apply existsb_exists. exists k. split; [exact Hx | apply String.eqb_refl].
Qed.

Lemma fold_add_key_nodup (ks keys : list string) :
  NoDup keys -> NoDup (fold_left add_key ks keys).
Proof.
  revert keys. induction ks as [| k ks IH]; intros keys H; simpl.
  - exact H.
  - apply IH, add_key_nodup, H.
Qed.

Lemma union_keys_nodup (recs : list dict) : NoDup (union_keys recs).
Proof.
  unfold union_keys.
  assert (G : forall keys, NoDup keys ->
    NoDup (fold_left (fun keys r => fold_left add_key (map fst r) keys)
             recs keys)).
  { induction recs as [| r recs IH]; intros keys H; simpl.
    - exact H.
    - apply IH, fold_add_key_nodup, H. }
  apply G. constructor.
Qed.

Lemma column_some_in (k : string) (cols : list (string * list value))
  (c : list value) :
  column k cols = Some c -> In k (map fst cols).
Proof.
  induction cols as [| [k' c'] cols IH]; simpl; intros H;
    [discriminate H |].
  destruct (String.eqb k k') eqn:Ek.
  - apply String.eqb_eq in Ek. left. symmetry. exact Ek.
  - right. apply IH, H.
Qed.

Lemma set_column_names (k : string) (c : list value)
  (cols : list (string * list value)) :
  In k (map fst cols) -> map fst (set_column k c cols) = map fst cols.
Proof.
  induction cols as [| [k' c'] cols IH]; simpl; intros H; [contradiction |].
  destruct (String.eqb k k') eqn:Ek; simpl.
  - apply String.eqb_eq in Ek. subst k'. reflexivity.
  - destruct H as [-> | H]; [rewrite String.eqb_refl in Ek; discriminate |].
    rewrite IH by exact H. reflexivity.
Qed.

Lemma names_of_keys (f : string -> list value) (keys : list string) :
  map fst (map (fun k => (k, f k)) keys) = keys.
Proof.
  induction keys as [| k keys IH]; simpl; [reflexivity |].
  rewrite IH. reflexivity.
Qed.

Lemma mapM_length {A B} (f : A -> result B) (l : list A) (l' : list B) :
  mapM f l = Ok l' -> List.length l' = List.length l.
Proof.
  intros H. apply mapM_Forall2 in H. symmetry. apply (Forall2_length H).
Qed.

(** The names of the columns of a table the constructor builds. *)
Lemma frame_of_names (E : Env) (all_data : list value) (df : DataFrame) :
  frame_of E all_data = Ok df ->
  exists recs,
    mapM as_dict all_data = Ok recs
    /\ map fst (df_columns df) = union_keys recs
    /\ In "date" (union_keys recs).
Proof.
  unfold frame_of, pd_DataFrame. intros H.
  apply rbind_ok in H. destruct H as (df0 & Hdf0 & H).
  apply rbind_ok in Hdf0. destruct Hdf0 as (recs & Hrecs & Hdf0).
  injection Hdf0 as <-.
  apply rbind_ok in H. destruct H as (dates & Hdates & H).
  apply rbind_ok in H. destruct H as (parsed & _ & H).
  injection H as <-.
  unfold df_getitem in Hdates.
  destruct (column "date" (df_columns (from_records recs))) eqn:Hc;
    [| discriminate Hdates].
  apply column_some_in in Hc.
  cbn [from_records df_columns] in Hc. rewrite names_of_keys in Hc.
  exists recs. split; [exact Hrecs |]. split; [| exact Hc].
  cbn [df_setitem df_columns from_records].
  rewrite set_column_names by (rewrite names_of_keys; exact Hc).
  apply names_of_keys.
Qed.

(** A table the constructor builds has columns of distinct names, [date]
    among them, the row labels 0, 1, ... one per row gathered, and in
    every column but [date] one cell per row gathered. *)
Theorem table_shape (E : Env) (all_data : list value) (df : DataFrame) :
  frame_of E all_data = Ok df ->
  NoDup (map fst (df_columns df))
  /\ In "date" (map fst (df_columns df))
  /\ df_index df = range_index (List.length all_data)
  /\ (forall k c, k <> "date" ->
                  column k (df_columns df) = Some c ->
                  List.length c = List.length all_data).
Proof.
  intros H.
  destruct (frame_of_names E all_data df H) as (recs & Hrecs & Hn & Hd).
  destruct (frame_of_rows E all_data df H) as (recs' & Hrecs' & Hi & Hc).
  assert (recs' = recs) by congruence. subst recs'.
  pose proof (mapM_length _ _ _ Hrecs) as Hlen.
  rewrite Hn. split; [apply union_keys_nodup |]. split; [exact Hd |].
  split; [rewrite Hi, Hlen; reflexivity |].
  intros k c Hk Hcol.
  rewrite (Hc k c Hk Hcol), infer_column_length, length_map. exact Hlen.
Qed.

Lemma table_shape_witness :
  exists df,
    run (__init__ env_AB ["A"; "B"] "ua") = Ok df
    /\ NoDup (map fst (df_columns df))
    /\ In "date" (map fst (df_columns df))
    /\ df_index df = range_index 3
    /\ (forall k c, k <> "date" ->
                    column k (df_columns df) = Some c ->
                    List.length c = 3%nat).
Proof.
  destruct (frame_of env_AB (cleaned_B ++ cleaned_A)) as [df | e] eqn:Hdf;
    [| vm_compute in Hdf; discriminate Hdf].
  exists df. split.
  - rewrite <- Hdf. vm_compute. reflexivity.
  - apply (table_shape env_AB (cleaned_B ++ cleaned_A) df Hdf).
Defined.




(** When the rows gathered all have the same keys in the same order, the
    columns of the table are those keys in that order. *)
Theorem columns_follow_the_keys (E : Env) (all_data : list value)
  (recs : list dict) (ks : list string) (df : DataFrame) :
  frame_of E all_data = Ok df ->
  mapM as_dict all_data = Ok recs ->
  recs <> [] ->
  NoDup ks ->
  Forall (fun r => map fst r = ks) recs ->
  map fst (df_columns df) = ks.
Proof.
  intros Hdf Hrecs Hne Hks Hall.
  destruct (frame_of_names E all_data df Hdf) as (recs' & Hrecs' & Hn & _).
  assert (recs' = recs) by congruence. subst recs'.
  rewrite Hn. apply union_keys_uniform; assumption.
Qed.

Lemma columns_follow_the_keys_witness :
  exists df,
    frame_of env_AB cleaned_B = Ok df
    /\ map fst (df_columns df)
       = ["date"; "close"; "volume"; "open"; "high"; "low"; "symbol"].
Proof.
  destruct (frame_of env_AB cleaned_B) as [df | e] eqn:Hdf;
    [| vm_compute in Hdf; discriminate Hdf].
  exists df. split; [reflexivity |].
  apply (columns_follow_the_keys env_AB cleaned_B records_B
           ["date"; "close"; "volume"; "open"; "high"; "low"; "symbol"]
           df Hdf).
  - reflexivity.
  - discriminate.
  - repeat constructor; simpl; intuition discriminate.
  - repeat constructor.
Defined.

End TableShape.

(* ================================================================= *)
(** ** The older draft [PriceHistory] *)

Module DraftFacts.

(** Whatever the answer, the draft's [_grab_prices] gets no list out of
    it. *)
Lemma parse_prices_no_batch (symbol : string) (r : response) :
  is_batch (PriceHistory.parse_prices symbol r) = false.
Proof.
  unfold PriceHistory.parse_prices.
  destruct (resp_ok r).
  - destruct (resp_json r); reflexivity.
  - unfold PriceHistory.response_chunks.
    destruct (resp_content r); reflexivity.
Qed.

Lemma grab_prices_no_batch (E : Env) (s : PriceHistory.self)
  (symbol : string) (from_date to_date : value) (log : list request) :
  is_batch (fst (PriceHistory._grab_prices E s symbol from_date to_date log))
  = false.
Proof.
  unfold PriceHistory._grab_prices, mbind, lift, requests_get.
  destruct (py_days_between to_date from_date); [| reflexivity].
  destruct (py_isoformat from_date); [| reflexivity].
  destruct (py_isoformat to_date); [| reflexivity].
  destruct (upstream E _ _); [| reflexivity].
  cbn [fst]. apply parse_prices_no_batch.
Qed.

(** Even handed a window of dates, the loop of the older draft gathers
    no rows: with a symbol to fetch it raises, whatever the servers
    answer. *)
Theorem draft_gathers_no_rows (E : Env) (s : PriceHistory.self)
  (from_date to_date : value) (symbols : list string)
  (all_data : list value) (log : list request) :
  symbols <> [] ->
  exists e,
    fst (PriceHistory.for_symbols E s from_date to_date symbols all_data log)
    = Raise e.
Proof.
  destruct symbols as [| symbol rest]; [contradiction |]. intros _.
  cbn [PriceHistory.for_symbols]. unfold mbind at 1.
  pose proof (grab_prices_no_batch E s symbol from_date to_date log) as Hb.
  destruct (PriceHistory._grab_prices E s symbol from_date to_date log)
    as [[v | e] log']; cbn [fst] in *; [| eauto].
  unfold mbind, lift. destruct v; simpl; eauto. discriminate Hb.
Qed.

Lemma draft_gathers_no_rows_witness :
  exists e,
    fst (PriceHistory.for_symbols env_AB (PriceHistory.new ["A"] "ua")
           (VDate (mkdate 2024 5 4)) (VDate (mkdate 2024 11 4)) ["A"] [] [])
    = Raise e.
Proof.
  apply (draft_gathers_no_rows env_AB (PriceHistory.new ["A"] "ua")
           (VDate (mkdate 2024 5 4)) (VDate (mkdate 2024 11 4)) ["A"] [] []).
  discriminate.
Defined.

(** The older draft sends the same requests whatever the symbol: the
    symbol is in no part of them. *)
Theorem draft_requests_ignore_the_symbol (E : Env) (s : PriceHistory.self)
  (a b : string) (from_date to_date : value) (log : list request) :
  snd (PriceHistory._grab_prices E s a from_date to_date log)
  = snd (PriceHistory._grab_prices E s b from_date to_date log).
Proof.
  unfold PriceHistory._grab_prices, mbind, lift, requests_get.
  destruct (py_days_between to_date from_date); [| reflexivity].
  destruct (py_isoformat from_date); [| reflexivity].
  destruct (py_isoformat to_date); [| reflexivity].
  unfold PriceHistory._build_url.
  destruct (upstream E _ _); reflexivity.
Qed.

End DraftFacts.

(* ================================================================= *)
(** ** [DolarPrices]: what the answer may lack *)

Module DolarFacts.
Import DolarPrices TableFacts.

Lemma build_run (E : Env) (s : self) (symbol : string) (r : response) :
  upstream E 0 (dolar_request s symbol) = Ok r ->
  run (_build_data_frame E s symbol)
  = (dolar_data <- resp_json r ;;
     dolar_df <- frame_of_json dolar_data ;;
     fecha <- df_getitem dolar_df "fecha" ;;
     fecha <- to_datetime E fecha ;;
     dolar_df <- set_index (df_setitem dolar_df "fecha" fecha) "fecha" ;;
     df_select dolar_df ["venta"]).
Proof.
  intros Hr. unfold run, _build_data_frame, mbind, requests_get, lift.
  cbn [List.length fst snd]. rewrite Hr. reflexivity.
Qed.

(** The status of the answer is not looked at: two answers with the same
    JSON give the same outcome. *)
Theorem status_is_not_looked_at (E E' : Env) (s : self) (symbol : string)
  (r r' : response) :
  upstream E 0 (dolar_request s symbol) = Ok r ->
  upstream E' 0 (dolar_request s symbol) = Ok r' ->
  resp_json r = resp_json r' ->
  (forall l, to_datetime E l = to_datetime E' l) ->
  run (_build_data_frame E s symbol) = run (_build_data_frame E' s symbol).
Proof.
  intros Hr Hr' Hjson Hdt.
  rewrite (build_run E s symbol r Hr), (build_run E' s symbol r' Hr').
  rewrite Hjson. destruct (resp_json r'); [| reflexivity]. cbn [rbind].
  destruct (frame_of_json a); [| reflexivity]. cbn [rbind].
  destruct (df_getitem a0 "fecha"); [| reflexivity]. cbn [rbind].
  rewrite Hdt. reflexivity.
Qed.

Lemma status_is_not_looked_at_witness :
  run (_build_data_frame env_dolar_500 __init__ "oficial")
  = run (_build_data_frame env_dolar __init__ "oficial").
Proof.
  apply (status_is_not_looked_at env_dolar_500 env_dolar __init__ "oficial"
           (mkresponse false "[...]" (Ok (VList (map VDict dolar_records))))
           (ok_response (VList (map VDict dolar_records)))).
  - reflexivity.
  - reflexivity.
  - reflexivity.
  - intros l. reflexivity.
Defined.








End DolarFacts.

(* ================================================================= *)
(** ** [PriceHistoryYF]: the window asked for *)

Module YFFacts.
Import PriceHistoryYF.

(** When only [to_date] is given, the download starts six months before
    that date, not before today; when only [from_date] is given it ends
    today; when both are given they are passed on as they are. *)
Theorem window_defaults (E : Env) (s : self) (from_date : value)
  (t f : date) :
  from_date <> VNone ->
  minus_six_months t = Ok f ->
  _build_data_frame E s VNone (VDate t)
  = yf_download E (_symbols s) (VDate f) (VDate t)
  /\ _build_data_frame E s from_date VNone
     = yf_download E (_symbols s) from_date (VDate (today E))
  /\ _build_data_frame E s from_date (VDate t)
     = yf_download E (_symbols s) from_date (VDate t).
Proof.
  intros Hfrom Hf. unfold _build_data_frame. repeat split.
  - simpl. rewrite Hf. reflexivity.
  - destruct from_date; try reflexivity. contradiction.
  - destruct from_date; try reflexivity. contradiction.
Qed.

Lemma window_defaults_witness :
  _build_data_frame env_AB (mkself ["A"]) VNone (VDate (mkdate 2024 8 31))
  = yf_download env_AB ["A"] (VDate (mkdate 2024 2 29))
      (VDate (mkdate 2024 8 31))
  /\ _build_data_frame env_AB (mkself ["A"]) (VDate (mkdate 2024 1 1)) VNone
     = yf_download env_AB ["A"] (VDate (mkdate 2024 1 1))
         (VDate (mkdate 2024 11 4))
  /\ _build_data_frame env_AB (mkself ["A"]) (VDate (mkdate 2024 1 1))
       (VDate (mkdate 2024 8 31))
     = yf_download env_AB ["A"] (VDate (mkdate 2024 1 1))
         (VDate (mkdate 2024 8 31)).
Proof.
  apply (window_defaults env_AB (mkself ["A"]) (VDate (mkdate 2024 1 1))
           (mkdate 2024 8 31) (mkdate 2024 2 29)).
  - discriminate.
  - reflexivity.
Defined.

Lemma constructor_window_witness :
  __init__ env_AB ["A"; "B"]
  = yf_download env_AB ["A"; "B"] (VDate (mkdate 2024 5 4))
      (VDate (mkdate 2024 11 4)).
Proof.
  apply (RequestClaims.yf_window env_AB ["A"; "B"] (mkdate 2024 5 4)).
  reflexivity.
Defined.

End YFFacts.
